(** * Kairos: the token route (web/src/app/api/token/route.ts)

    A shallow embedding of the [GET] handler that provisions a LiveKit room
    and issues an access token for it, together with the properties of the
    handler that the specification states.

    The handler is an [async] function whose only effects are three kinds of
    outbound call: [roomService.createRoom], [at.toJwt] and [console.error].
    Each [await] is sequential, so the handler is embedded in a small monad
    that threads the log of outbound calls made so far, reads the answers of
    the room backend and of the signing library from the [World], and
    propagates JavaScript exceptions ([try]/[catch] is a combinator). *)

From Stdlib Require Import ZArith Ascii String Lia.
From stdpp Require Import base option list strings gmap pretty.

Local Open Scope string_scope.
Local Open Scope Z_scope.
Local Open Scope list_scope.

(** ** JavaScript values *)

(** Strings are kept as their UTF-8 bytes: the values that reach the handler
    come out of [URLSearchParams] and [process.env], which hold well-formed
    text only. *)

(** The values the handler puts in object literals. An object keeps its
    properties in insertion order. *)
#[warnings="-register-all"]
Inductive JsValue : Type :=
| JNull
| JBool (b : bool)
| JStr (s : string)
| JObj (props : list (string * JsValue)).

(** A thrown value. *)
Inductive JsError : Type :=
| Error (message : string).

(** How the evaluation of an [await]ed call ends. *)
Inductive Completion (A : Type) : Type :=
| Normal (a : A)
| Throw (e : JsError).
Arguments Normal {A} a.
Arguments Throw {A} e.

(** [!x] on a [string | null | undefined]: the missing value and the empty
    string are falsy, every other string is truthy. [truthy] returns the
    narrowed string. *)
Definition truthy (x : option string) : option string :=
  match x with
  | Some EmptyString => None
  | Some s => Some s
  | None => None
  end.

(** The values [!x] rejects. *)
Definition missing_or_empty (x : option string) : Prop :=
  x = None \/ x = Some "".

(** ** The request *)

(** [request.nextUrl.searchParams]: the decoded query pairs, in order. *)
Record NextURL : Type := { searchParams : list (string * string) }.
Record NextRequest : Type := { nextUrl : NextURL }.

(** [URLSearchParams.prototype.get]: the value of the first pair of that
    name, [null] when there is none. *)
Fixpoint URLSearchParams_get (params : list (string * string)) (name : string)
  : option string :=
  match params with
  | [] => None
  | (k, v) :: rest =>
      if String.eqb k name then Some v else URLSearchParams_get rest name
  end.

(** ** The response *)

Record NextResponse : Type := { status : Z; body : JsValue }.

(** [NextResponse.json(body, init)]: the status is 200 unless [init] sets it. *)
Definition NextResponse_json (b : JsValue) (init : option Z) : NextResponse :=
  {| status := default 200 init; body := b |}.

(** ** livekit-server-sdk objects *)

(** The SDK is an external dependency. Its objects are modelled as records
    of what the handler hands to them; what the backend and the signing
    library answer is left to the [World]. *)

Record RoomServiceClient : Type :=
  { rs_host : string; rs_apiKey : string; rs_secret : string }.

Definition new_RoomServiceClient (host apiKey secret : string) : RoomServiceClient :=
  {| rs_host := host; rs_apiKey := apiKey; rs_secret := secret |}.

(** The options object literal of [createRoom]. *)
Record CreateOptions : Type :=
  { name : string; emptyTimeout : Z; maxParticipants : Z; metadata : string }.

(** The methods of the room service that act on rooms. *)
Inductive RoomCall : Type :=
| CreateRoom (opts : CreateOptions)
| DeleteRoom (room : string)
| UpdateRoomMetadata (room : string) (md : string).

Record AccessTokenOptions : Type := { identity : string; ttl : string }.

Record AccessToken : Type :=
  { at_apiKey : string;
    at_apiSecret : string;
    at_identity : string;
    at_ttl : string;
    at_video : list (string * JsValue) }.

Definition new_AccessToken (apiKey apiSecret : string) (options : AccessTokenOptions)
  : AccessToken :=
  {| at_apiKey := apiKey; at_apiSecret := apiSecret;
     at_identity := identity options; at_ttl := ttl options;
     at_video := [] |}.

(** [{ ...o, [k]: v }]: an existing property keeps its place and takes the
    new value, a new one goes last. *)
Fixpoint obj_set (k : string) (v : JsValue) (o : list (string * JsValue))
  : list (string * JsValue) :=
  match o with
  | [] => [(k, v)]
  | (k', v') :: rest =>
      if String.eqb k' k then (k', v) :: rest else (k', v') :: obj_set k v rest
  end.

(** [{ ...o1, ...o2 }]. *)
Definition obj_spread (o1 o2 : list (string * JsValue)) : list (string * JsValue) :=
  fold_left (fun acc kv => obj_set (fst kv) (snd kv) acc) o2 o1.

(** [at.addGrant(grant)] merges the grant into [grants.video]. *)
Definition addGrant (at' : AccessToken) (grant : list (string * JsValue)) : AccessToken :=
  {| at_apiKey := at_apiKey at'; at_apiSecret := at_apiSecret at';
     at_identity := at_identity at'; at_ttl := at_ttl at';
     at_video := obj_spread (at_video at') grant |}.

(** ** Outbound calls and the world that answers them *)

(** An argument of [console.error]. *)
Inductive LogArg : Type :=
| LStr (s : string)
| LErr (e : JsError).

(** One outbound call, with its answer. *)
Inductive Event : Type :=
| EvRoom (client : RoomServiceClient) (call : RoomCall) (r : Completion unit)
| EvToJwt (tok : AccessToken) (r : Completion string)
| EvConsoleError (args : list LogArg).

(** The world outside the handler: the environment variables, the room
    backend and the signing library. The backend and the library may answer
    differently from one call to the next, so they see the calls made so
    far. *)
Record World : Type :=
  { process_env : gmap string string;
    roomBackend : list Event -> RoomServiceClient -> RoomCall -> Completion unit;
    jwtSigner : list Event -> AccessToken -> Completion string }.

(** ** The handler monad *)

Definition M (A : Type) : Type := World -> list Event -> list Event * Completion A.

Definition ret {A} (a : A) : M A := fun _ log => (log, Normal a).

Definition bind {A B} (m : M A) (k : A -> M B) : M B :=
  fun w log =>
    match m w log with
    | (log', Normal a) => k a w log'
    | (log', Throw e) => (log', Throw e)
    end.

Definition try_catch {A} (m : M A) (handler : JsError -> M A) : M A :=
  fun w log =>
    match m w log with
    | (log', Normal a) => (log', Normal a)
    | (log', Throw e) => handler e w log'
    end.

Definition getenv (var : string) : M (option string) :=
  fun w log => (log, Normal (process_env w !! var)).

Definition room_call (client : RoomServiceClient) (call : RoomCall) : M unit :=
  fun w log =>
    let r := roomBackend w log client call in
    (log ++ [EvRoom client call r], r).

Definition createRoom (client : RoomServiceClient) (opts : CreateOptions) : M unit :=
  room_call client (CreateRoom opts).

Definition toJwt (tok : AccessToken) : M string :=
  fun w log =>
    let r := jwtSigner w log tok in
    (log ++ [EvToJwt tok r], r).

Definition console_error (args : list LogArg) : M unit :=
  fun _ log => (log ++ [EvConsoleError args], Normal tt).

Declare Scope js_scope.
Delimit Scope js_scope with js.
Notation "'let*' x ':=' m 'in' k" := (bind m (fun x => k))
  (at level 10, x name, m at level 100, k at level 200) : js_scope.
Notation "m ';;;' k" := (bind m (fun _ => k))
  (at level 100, k at level 200, right associativity) : js_scope.
Local Open Scope js_scope.

(** ** JSON.stringify *)

Definition dquote : string := String "034"%char EmptyString.
Definition backslash : string := String "092"%char EmptyString.

Definition hex_digit (n : N) : ascii :=
  (if n <? 10 then ascii_of_N (48 + n) else ascii_of_N (87 + n))%N.

(** The escape of one byte inside a JSON string literal (QuoteJSONString). *)
Definition json_escape_char (c : ascii) : string :=
  let n := N_of_ascii c in
  if (n =? 34)%N then backslash +:+ dquote
  else if (n =? 92)%N then backslash +:+ backslash
  else if (n =? 8)%N then backslash +:+ "b"
  else if (n =? 12)%N then backslash +:+ "f"
  else if (n =? 10)%N then backslash +:+ "n"
  else if (n =? 13)%N then backslash +:+ "r"
  else if (n =? 9)%N then backslash +:+ "t"
  else if (n <? 32)%N then
    backslash +:+ "u00" +:+ String (hex_digit (n / 16)) (String (hex_digit (n mod 16)) "")
  else String c "".

Fixpoint json_escape (s : string) : string :=
  match s with
  | EmptyString => ""
  | String c rest => json_escape_char c +:+ json_escape rest
  end.

Definition json_quote (s : string) : string := dquote +:+ json_escape s +:+ dquote.

Fixpoint JSON_stringify (v : JsValue) : string :=
  match v with
  | JNull => "null"
  | JBool true => "true"
  | JBool false => "false"
  | JStr s => json_quote s
  | JObj props =>
      let fix members (l : list (string * JsValue)) : string :=
        match l with
        | [] => ""
        | [(k, x)] => json_quote k +:+ ":" +:+ JSON_stringify x
        | (k, x) :: rest => json_quote k +:+ ":" +:+ JSON_stringify x +:+ "," +:+ members rest
        end in
      "{" +:+ members props +:+ "}"
  end.

(** ** The handler *)

Definition GET (request : NextRequest) : M NextResponse :=
  let roomName := URLSearchParams_get (searchParams (nextUrl request)) "room" in
  let participantName := URLSearchParams_get (searchParams (nextUrl request)) "username" in
  match truthy roomName, truthy participantName with
  | Some roomName, Some participantName =>
    let* apiKey := getenv "LIVEKIT_API_KEY" in
    let* apiSecret := getenv "LIVEKIT_API_SECRET" in
    let* livekitUrl := getenv "LIVEKIT_URL" in
    match truthy apiKey, truthy apiSecret, truthy livekitUrl with
    | Some apiKey, Some apiSecret, Some livekitUrl =>
      try_catch
        (let roomService := new_RoomServiceClient livekitUrl apiKey apiSecret in
         createRoom roomService
           {| name := roomName;
              emptyTimeout := 60 * 10;
              maxParticipants := 2;
              metadata := JSON_stringify (JObj [("created_by", JStr participantName)]) |};;;
         let at' := new_AccessToken apiKey apiSecret
                      {| identity := participantName; ttl := "1h" |} in
         let at' := addGrant at'
                      [("roomJoin", JBool true);
                       ("room", JStr roomName);
                       ("canPublish", JBool true);
                       ("canSubscribe", JBool true);
                       ("canPublishData", JBool true);
                       ("agent", JBool true)] in
         let* token := toJwt at' in
         ret (NextResponse_json (JObj [("token", JStr token); ("url", JStr livekitUrl)]) None))
        (fun error =>
         console_error [LStr "Error creating room/token:"; LErr error];;;
         let at' := new_AccessToken apiKey apiSecret
                      {| identity := participantName; ttl := "1h" |} in
         let at' := addGrant at'
                      [("roomJoin", JBool true);
                       ("room", JStr roomName);
                       ("canPublish", JBool true);
                       ("canSubscribe", JBool true);
                       ("canPublishData", JBool true);
                       ("agent", JBool true)] in
         let* token := toJwt at' in
         ret (NextResponse_json (JObj [("token", JStr token); ("url", JStr livekitUrl)]) None))
    | _, _, _ =>
      console_error [LStr "LiveKit credentials not set"];;;
      ret (NextResponse_json (JObj [("error", JStr "Server configuration error")]) (Some 500))
    end
  | _, _ =>
    ret (NextResponse_json (JObj [("error", JStr "Missing room or username")]) (Some 400))
  end.

(** ** Observing a run *)

(** The query parameter the handler reads under [name]. *)
Definition query (request : NextRequest) (name : string) : option string :=
  URLSearchParams_get (searchParams (nextUrl request)) name.

(** The calls a run of the handler adds to the log it started from. *)
Definition emitted (request : NextRequest) (w : World) (log : list Event) : list Event :=
  drop (length log) (fst (GET request w log)).

(** How the run ends: a response, or an exception that leaves the handler. *)
Definition outcome (request : NextRequest) (w : World) (log : list Event)
  : Completion NextResponse :=
  snd (GET request w log).

(** The calls made on the room backend, in order. *)
Fixpoint room_calls (log : list Event) : list RoomCall :=
  match log with
  | [] => []
  | EvRoom _ call _ :: rest => call :: room_calls rest
  | _ :: rest => room_calls rest
  end.

(** The tokens handed to [toJwt], in order. *)
Fixpoint signed (log : list Event) : list AccessToken :=
  match log with
  | [] => []
  | EvToJwt tok _ :: rest => tok :: signed rest
  | _ :: rest => signed rest
  end.

(** A value that is there and not empty. *)
Definition present (x : option string) (s : string) : Prop :=
  x = Some s /\ s <> "".

(** A request that carries a room and a username. *)
Definition valid_request (request : NextRequest) (room user : string) : Prop :=
  present (query request "room") room /\ present (query request "username") user.

(** A world in which the three configuration values are set. *)
Definition configured (w : World) (key secret url : string) : Prop :=
  present (process_env w !! "LIVEKIT_API_KEY") key /\
  present (process_env w !! "LIVEKIT_API_SECRET") secret /\
  present (process_env w !! "LIVEKIT_URL") url.

(** A world in which one of the three is absent (or set to nothing). *)
Definition config_incomplete (w : World) : Prop :=
  missing_or_empty (process_env w !! "LIVEKIT_API_KEY") \/
  missing_or_empty (process_env w !! "LIVEKIT_API_SECRET") \/
  missing_or_empty (process_env w !! "LIVEKIT_URL").

(** A world in which one of the three is absent. *)
Definition config_absent (w : World) : Prop :=
  process_env w !! "LIVEKIT_API_KEY" = None \/
  process_env w !! "LIVEKIT_API_SECRET" = None \/
  process_env w !! "LIVEKIT_URL" = None.

(** The signing library answers every call with a token. *)
Definition signing_works (w : World) : Prop :=
  forall log tok, exists jwt, jwtSigner w log tok = Normal jwt.

(** The two response shapes of the interface. *)
Definition success_response (jwt url : string) : NextResponse :=
  {| status := 200; body := JObj [("token", JStr jwt); ("url", JStr url)] |}.

Definition error_response (code : Z) (message : string) : NextResponse :=
  {| status := code; body := JObj [("error", JStr message)] |}.

(** The room policy and the credential the specification describes. *)
Definition room_policy (room user : string) : CreateOptions :=
  {| name := room;
     emptyTimeout := 600;
     maxParticipants := 2;
     metadata := JSON_stringify (JObj [("created_by", JStr user)]) |}.

Definition credential (key secret room user : string) : AccessToken :=
  {| at_apiKey := key;
     at_apiSecret := secret;
     at_identity := user;
     at_ttl := "1h";
     at_video := [("roomJoin", JBool true);
                  ("room", JStr room);
                  ("canPublish", JBool true);
                  ("canSubscribe", JBool true);
                  ("canPublishData", JBool true);
                  ("agent", JBool true)] |}.

(** ** Whitespace, as [String.prototype.trim] sees it *)

(** The handler never trims; trimming is defined to state the sentence of
    the specification that speaks of it. *)

(** [s.trimStart()] on UTF-8 text: drops leading WhiteSpace and
    LineTerminator code points (TAB, LF, VT, FF, CR, SP, NBSP, U+1680,
    U+2000..U+200A, U+2028, U+2029, U+202F, U+205F, U+3000, U+FEFF). *)
Fixpoint trimStart (s : string) : string :=
  match s with
  | String c1 rest1 =>
      let n1 := N_of_ascii c1 in
      if ((9 <=? n1) && (n1 <=? 13) || (n1 =? 32))%N then trimStart rest1
      else
        match rest1 with
        | String c2 rest2 =>
            let n2 := N_of_ascii c2 in
            if ((n1 =? 194) && (n2 =? 160))%N then trimStart rest2
            else
              match rest2 with
              | String c3 rest3 =>
                  let n3 := N_of_ascii c3 in
                  if ((n1 =? 225) && (n2 =? 154) && (n3 =? 128)
                      || (n1 =? 226) && (n2 =? 128)
                         && ((128 <=? n3) && (n3 <=? 138) || (n3 =? 168)
                             || (n3 =? 169) || (n3 =? 175))
                      || (n1 =? 226) && (n2 =? 129) && (n3 =? 159)
                      || (n1 =? 227) && (n2 =? 128) && (n3 =? 128)
                      || (n1 =? 239) && (n2 =? 187) && (n3 =? 191))%N
                  then trimStart rest3
                  else s
              | EmptyString => s
              end
        | EmptyString => s
        end
  | EmptyString => s
  end.

(** "Missing or empty after trimming": [s.trim()] is empty exactly when
    [s.trimStart()] is. *)
Definition blank_after_trim (x : option string) : Prop :=
  match x with
  | None => True
  | Some s => trimStart s = ""
  end.

(** ** Reading the room metadata back *)

(** The handler only writes the metadata; the reader below is what "the
    metadata records the requesting identity" is stated with. *)

Definition hex_value (c : ascii) : option N :=
  let n := N_of_ascii c in
  (if (48 <=? n) && (n <=? 57) then Some (n - 48)
   else if (97 <=? n) && (n <=? 102) then Some (n - 87)
   else if (65 <=? n) && (n <=? 70) then Some (n - 55)
   else None)%N.

(** Reads a JSON string literal from just after its opening quote up to its
    closing quote; gives the text and what follows the literal. Escapes
    above U+007F are not read. *)
Fixpoint json_read_string (s : string) : option (string * string) :=
  match s with
  | EmptyString => None
  | String c rest =>
      let n := N_of_ascii c in
      if (n =? 34)%N then Some ("", rest)
      else if (n =? 92)%N then
        match rest with
        | EmptyString => None
        | String d rest' =>
            let m := N_of_ascii d in
            let push (x : ascii) (r : string) :=
              match json_read_string r with
              | Some (txt, k) => Some (String x txt, k)
              | None => None
              end in
            if (m =? 34)%N then push "034"%char rest'
            else if (m =? 92)%N then push "092"%char rest'
            else if (m =? 47)%N then push "/"%char rest'
            else if (m =? 98)%N then push "008"%char rest'
            else if (m =? 102)%N then push "012"%char rest'
            else if (m =? 110)%N then push "010"%char rest'
            else if (m =? 114)%N then push "013"%char rest'
            else if (m =? 116)%N then push "009"%char rest'
            else if (m =? 117)%N then
              match rest' with
              | String h1 (String h2 (String h3 (String h4 rest''))) =>
                  match hex_value h1, hex_value h2, hex_value h3, hex_value h4 with
                  | Some 0%N, Some 0%N, Some a, Some b =>
                      if (a <? 8)%N then push (ascii_of_N (16 * a + b)) rest'' else None
                  | _, _, _, _ => None
                  end
              | _ => None
              end
            else None
        end
      else if (n <? 32)%N then None
      else
        match json_read_string rest with
        | Some (txt, k) => Some (String c txt, k)
        | None => None
        end
  end.

Fixpoint strip_prefix (p s : string) : option string :=
  match p, s with
  | EmptyString, _ => Some s
  | String a p', String b s' => if Ascii.eqb a b then strip_prefix p' s' else None
  | String _ _, EmptyString => None
  end.

(** The identity recorded in a room's metadata: the [created_by] property of
    the JSON object [{"created_by": ...}]. *)
Definition created_by_of (md : string) : option string :=
  match strip_prefix ("{" +:+ json_quote "created_by" +:+ ":" +:+ dquote) md with
  | Some rest =>
      match json_read_string rest with
      | Some (who, "}") => Some who
      | _ => None
      end
  | None => None
  end.

(** ** Token lifetime, from the specification *)

(** Modelled from the spec: the signing library (livekit-server-sdk, and the
    JWT library under it) is not among the sources, so what it makes of the
    [ttl] option is modelled in this section. [read_digits] reads the
    leading decimal digits of a time span. *)
Fixpoint read_digits (s : string) (acc : option Z) : option Z * string :=
  match s with
  | String c rest =>
      let n := Z.of_N (N_of_ascii c) in
      if (48 <=? n) && (n <=? 57)
      then read_digits rest (Some (10 * default 0 acc + (n - 48)))
      else (acc, s)
  | EmptyString => (acc, s)
  end.

(** Modelled from the spec: the length in seconds of the units of a time
    span (the signing library is not among the sources). *)
Definition unit_seconds (u : string) : option Z :=
  if bool_decide (u ∈ ["s"; "sec"; "secs"; "second"; "seconds"]) then Some 1
  else if bool_decide (u ∈ ["m"; "min"; "mins"; "minute"; "minutes"]) then Some 60
  else if bool_decide (u ∈ ["h"; "hr"; "hrs"; "hour"; "hours"]) then Some 3600
  else if bool_decide (u ∈ ["d"; "day"; "days"]) then Some 86400
  else if bool_decide (u ∈ ["w"; "week"; "weeks"]) then Some 604800
  else None.

(** Modelled from the spec: the time-to-live the signing library gives a
    token (the library is not among the sources). The specification fixes it
    at 1 hour from issuance; [ttl_seconds] reads a time span written as a
    number followed by a unit, so that ["1h"] is 3600 seconds. *)
Definition ttl_seconds (span : string) : option Z :=
  match read_digits span None with
  | (Some n, u) =>
      match unit_seconds (match u with String " "%char u' => u' | _ => u end) with
      | Some k => Some (n * k)
      | None => None
      end
  | (None, _) => None
  end.

(** Modelled from the spec: a token signed at time [issued] (in seconds)
    expires [ttl] later; it is valid strictly before its expiry. *)
Definition expiry (tok : AccessToken) (issued : Z) : option Z :=
  match ttl_seconds (at_ttl tok) with
  | Some d => Some (issued + d)
  | None => None
  end.

(** Modelled from the spec: a token is valid from its issuance until its
    expiry (checked downstream, by signature and expiry). *)
Definition valid_at (tok : AccessToken) (issued now : Z) : bool :=
  match expiry tok issued with
  | Some e => (issued <=? now) && (now <? e)
  | None => false
  end.

Definition minutes (n : Z) : Z := 60 * n.

(** What the handler answers once signing has completed. *)
Definition settle (url : string) (c : Completion string) : Completion NextResponse :=
  match c with
  | Normal jwt => Normal (success_response jwt url)
  | Throw e => Throw e
  end.

(** The runs of a valid request in a configured world: the calls made after
    [log] and the way the run ends. Either the room is created and the token
    signed; or the room is created, signing throws, and the [catch] block
    signs again; or creation throws and the [catch] block signs. *)
Inductive session (w : World) (log : list Event) (key secret url room user : string)
  : list Event -> Completion NextResponse -> Prop :=
| session_created (jwt : string) :
    let client := new_RoomServiceClient url key secret in
    let create := CreateRoom (room_policy room user) in
    let tok := credential key secret room user in
    roomBackend w log client create = Normal tt ->
    jwtSigner w (log ++ [EvRoom client create (Normal tt)]) tok = Normal jwt ->
    session w log key secret url room user
      [EvRoom client create (Normal tt); EvToJwt tok (Normal jwt)]
      (Normal (success_response jwt url))
| session_signed_again (e : JsError) (c : Completion string) :
    let client := new_RoomServiceClient url key secret in
    let create := CreateRoom (room_policy room user) in
    let tok := credential key secret room user in
    let report := EvConsoleError [LStr "Error creating room/token:"; LErr e] in
    roomBackend w log client create = Normal tt ->
    jwtSigner w (log ++ [EvRoom client create (Normal tt)]) tok = Throw e ->
    jwtSigner w (log ++ [EvRoom client create (Normal tt); EvToJwt tok (Throw e); report])
      tok = c ->
    session w log key secret url room user
      [EvRoom client create (Normal tt); EvToJwt tok (Throw e); report; EvToJwt tok c]
      (settle url c)
| session_recovered (e : JsError) (c : Completion string) :
    let client := new_RoomServiceClient url key secret in
    let create := CreateRoom (room_policy room user) in
    let tok := credential key secret room user in
    let report := EvConsoleError [LStr "Error creating room/token:"; LErr e] in
    roomBackend w log client create = Throw e ->
    jwtSigner w (log ++ [EvRoom client create (Throw e); report]) tok = c ->
    session w log key secret url room user
      [EvRoom client create (Throw e); report; EvToJwt tok c]
      (settle url c).

(** ** Worlds and requests to run the handler in *)

Definition request_of (room user : string) : NextRequest :=
  {| nextUrl := {| searchParams := [("room", room); ("username", user)] |} |}.

Definition env_full : gmap string string :=
  list_to_map [("LIVEKIT_API_KEY", "devkey");
               ("LIVEKIT_API_SECRET", "devsecret");
               ("LIVEKIT_URL", "wss://kairos.livekit.example")].

(** A stand-in for the signed string: it names the identity and the room. *)
Definition stub_jwt (tok : AccessToken) : string :=
  match at_video tok with
  | _ :: (_, JStr room) :: _ => at_identity tok +:+ "@" +:+ room
  | _ => at_identity tok
  end.

(** Whether [log] holds a successful creation of the room [room]. *)
Fixpoint room_exists (room : string) (log : list Event) : bool :=
  match log with
  | [] => false
  | EvRoom _ (CreateRoom opts) (Normal _) :: rest =>
      String.eqb (name opts) room || room_exists room rest
  | _ :: rest => room_exists room rest
  end.

(** A backend that refuses to create a room twice. *)
Definition strict_backend (log : list Event) (client : RoomServiceClient) (call : RoomCall)
  : Completion unit :=
  match call with
  | CreateRoom opts =>
      if room_exists (name opts) log then Throw (Error "room already exists")
      else Normal tt
  | _ => Normal tt
  end.

Definition world_strict : World :=
  {| process_env := env_full;
     roomBackend := strict_backend;
     jwtSigner := fun _ tok => Normal (stub_jwt tok) |}.

(** The backend cannot be reached. *)
Definition world_down : World :=
  {| process_env := env_full;
     roomBackend := fun _ _ _ => Throw (Error "fetch failed");
     jwtSigner := fun _ tok => Normal (stub_jwt tok) |}.

(** The signing library throws. *)
Definition world_unsigned : World :=
  {| process_env := env_full;
     roomBackend := strict_backend;
     jwtSigner := fun _ _ => Throw (Error "signing failed") |}.

(** The signing key is not set. *)
Definition world_no_key : World :=
  {| process_env := delete "LIVEKIT_API_KEY" env_full;
     roomBackend := strict_backend;
     jwtSigner := fun _ tok => Normal (stub_jwt tok) |}.

(** The scenario of the specification: Alex asks for a fresh room; Blake
    asks for the same room afterwards. *)
Definition demo_room : string := "kairos-1700000000-ab12cd".
Definition demo_url : string := "wss://kairos.livekit.example".
Definition request_alex : NextRequest := request_of demo_room "Alex".
Definition request_blake : NextRequest := request_of demo_room "Blake".
Definition log_after_alex : list Event := fst (GET request_alex world_strict []).

(** ** Two sentences of the specification, as they are written *)

(** "If any one of the three configuration values is absent, every request
    (valid or not) returns a server-configuration error and neither
    provisioning nor signing is attempted." *)
Definition config_error_for_every_request : Prop :=
  forall (req : NextRequest) (w : World) (log : list Event),
    config_absent w ->
    (exists message, outcome req w log = Normal (error_response 500 message)) /\
    room_calls (emitted req w log) = [] /\
    signed (emitted req w log) = [].

(** "Rejects immediately (no provisioning or signing attempted) when either
    room_identifier or participant_identity is missing or empty after
    trimming." *)
Definition blank_request_rejected : Prop :=
  forall (req : NextRequest) (w : World) (log : list Event),
    blank_after_trim (query req "room") \/ blank_after_trim (query req "username") ->
    outcome req w log = Normal (error_response 400 "Missing room or username") /\
    room_calls (emitted req w log) = [] /\
    signed (emitted req w log) = [].

(** ** More observers of a run *)

(** The argument lists of the [console.error] calls, in order. *)
Fixpoint console_calls (log : list Event) : list (list LogArg) :=
  match log with
  | [] => []
  | EvConsoleError args :: rest => args :: console_calls rest
  | _ :: rest => console_calls rest
  end.

(** The exception an outbound call ended with, if it threw. *)
Definition thrown_by (ev : Event) : option JsError :=
  match ev with
  | EvRoom _ _ (Throw e) => Some e
  | EvToJwt _ (Throw e) => Some e
  | _ => None
  end.

(** The keys an outbound call was made with: the room client's host, key
    and secret, or the key and secret of the token to sign. *)
Definition keys_of (ev : Event) : option (option string * string * string) :=
  match ev with
  | EvRoom client _ _ => Some (Some (rs_host client), rs_apiKey client, rs_secret client)
  | EvToJwt tok _ => Some (None, at_apiKey tok, at_apiSecret tok)
  | EvConsoleError _ => None
  end.



(** * The page (web/src/app/page.tsx) *)

(** The [Home] component keeps five state variables and offers two
    handlers. [handleConnect] asks the token route for a credential;
    [handleDisconnect] forgets it. The handlers are embedded in a monad of
    their own: it threads the component state and the URLs fetched, reads
    the clock, the random source and the network from the [Browser], and
    propagates what is thrown. *)

Module Home.

Inductive ConnectionState : Type := disconnected | connecting | connected.

(** What a variable or a property read may hold: [undefined], or a value
    ([null] is [Value JNull]). *)
Inductive JsRef : Type :=
| Undefined
| Value (v : JsValue).

(** Truthiness. *)
Definition truthy_value (v : JsValue) : bool :=
  match v with
  | JNull => false
  | JBool b => b
  | JStr s => negb (String.eqb s "")
  | JObj _ => true
  end.


(** [a || b] with [b] a value. *)
Definition or_else (a : JsRef) (b : JsValue) : JsValue :=
  match a with
  | Undefined => b
  | Value v => if truthy_value v then v else b
  end.

(** The state of the component. [token] and [serverUrl] hold whatever the
    response carried under these names. *)
Record HomeState : Type :=
  { connectionState : ConnectionState;
    token : JsRef;
    serverUrl : JsRef;
    userName : string;
    error : option string }.

Definition initial : HomeState :=
  {| connectionState := disconnected;
     token := Value JNull;
     serverUrl := Value JNull;
     userName := "";
     error := None |}.

(** A thrown value: an [Error] with its message, or something else. *)
Inductive Thrown : Type :=
| ThrownError (message : string)
| ThrownOther.

(** How a promise stands when it is awaited: resolved, rejected, or never
    settling. *)
Inductive Settled (A : Type) : Type :=
| Resolved (a : A)
| Rejected (t : Thrown)
| Pending.
Arguments Resolved {A} a.
Arguments Rejected {A} t.
Arguments Pending {A}.

(** What the page uses of a [Response]: [ok] and the outcome of [json()]. *)
Record FetchResponse : Type := { ok : bool; json : Settled JsValue }.

(** The [TypeError]s the engine itself raises in [handleConnect]. *)
Inductive EngineFault : Type :=
| ReadOfNull (prop : string)
| NotPrimitive.

(** The browser: the clock, the random source (already written in base
    36), the network, and the wording of the engine's own errors. *)
Record Browser : Type :=
  { Date_now : Z;
    Math_random_toString36 : string;
    fetch : string -> Settled FetchResponse;
    engineMessage : EngineFault -> string }.

(** A run of a handler: the state it has reached and the URLs it has
    fetched. *)
Record PageRun : Type := { view : HomeState; fetched : list string }.

Definition P (A : Type) : Type := Browser -> PageRun -> PageRun * Settled A.

Definition pret {A} (a : A) : P A := fun _ r => (r, Resolved a).

Definition pbind {A B} (m : P A) (k : A -> P B) : P B :=
  fun b r =>
    match m b r with
    | (r', Resolved a) => k a b r'
    | (r', Rejected t) => (r', Rejected t)
    | (r', Pending) => (r', Pending)
    end.

Definition throw {A} (t : Thrown) : P A := fun _ r => (r, Rejected t).

Definition ptry_catch {A} (m : P A) (handler : Thrown -> P A) : P A :=
  fun b r =>
    match m b r with
    | (r', Resolved a) => (r', Resolved a)
    | (r', Rejected t) => handler t b r'
    | (r', Pending) => (r', Pending)
    end.

(** [await p] for a promise that stands as [p]; the handler goes no further
    on one that never settles. *)
Definition await {A} (p : Settled A) : P A := fun _ r => (r, p).

Definition use {A} (field : HomeState -> A) : P A :=
  fun _ r => (r, Resolved (field (view r))).

Definition update (f : HomeState -> HomeState) : P unit :=
  fun _ r => ({| view := f (view r); fetched := fetched r |}, Resolved tt).

Definition setConnectionState (c : ConnectionState) : P unit :=
  update (fun s => {| connectionState := c; token := token s; serverUrl := serverUrl s;
                      userName := userName s; error := error s |}).

Definition setToken (t : JsRef) : P unit :=
  update (fun s => {| connectionState := connectionState s; token := t;
                      serverUrl := serverUrl s; userName := userName s; error := error s |}).

Definition setServerUrl (u : JsRef) : P unit :=
  update (fun s => {| connectionState := connectionState s; token := token s;
                      serverUrl := u; userName := userName s; error := error s |}).

Definition setError (e : option string) : P unit :=
  update (fun s => {| connectionState := connectionState s; token := token s;
                      serverUrl := serverUrl s; userName := userName s; error := e |}).

Definition do_fetch (url : string) : P FetchResponse :=
  fun b r => ({| view := view r; fetched := fetched r ++ [url] |}, fetch b url).

(** [data.name]: reading a property of [null] throws a [TypeError]; a
    boolean or a string has none of the names read here; an object gives
    the value under the name, or [undefined]. An object has each name
    once. *)
Fixpoint lookup_prop (props : list (string * JsValue)) (name : string) : JsRef :=
  match props with
  | [] => Undefined
  | (k, v) :: rest => if String.eqb k name then Value v else lookup_prop rest name
  end.

Definition get (data : JsValue) (name : string) : P JsRef :=
  fun b r =>
    match data with
    | JNull => (r, Rejected (ThrownError (engineMessage b (ReadOfNull name))))
    | JBool _ => (r, Resolved Undefined)
    | JStr _ => (r, Resolved Undefined)
    | JObj props => (r, Resolved (lookup_prop props name))
    end.

(** [String(v)], as [new Error(v)] applies it to its argument. A parsed
    object with a [toString] property of its own has no primitive value. *)
Definition toString (v : JsValue) : P string :=
  fun b r =>
    match v with
    | JNull => (r, Resolved "null")
    | JBool true => (r, Resolved "true")
    | JBool false => (r, Resolved "false")
    | JStr s => (r, Resolved s)
    | JObj props =>
        match lookup_prop props "toString" with
        | Undefined => (r, Resolved "[object Object]")
        | Value _ => (r, Rejected (ThrownError (engineMessage b NotPrimitive)))
        end
    end.

Declare Scope page_scope.
Delimit Scope page_scope with page.
Notation "'let*' x ':=' m 'in' k" := (pbind m (fun x => k))
  (at level 10, x name, m at level 100, k at level 200) : page_scope.
Notation "m ';;;' k" := (pbind m (fun _ => k))
  (at level 100, k at level 200, right associativity) : page_scope.
Local Open Scope page_scope.

(** [s.trimEnd()] and [s.trim()] on UTF-8 text. *)
Fixpoint trimEnd (s : string) : string :=
  match s with
  | EmptyString => ""
  | String c rest =>
      match trimStart s with
      | EmptyString => ""
      | String _ _ => String c (trimEnd rest)
      end
  end.

Definition trim (s : string) : string := trimEnd (trimStart s).

Definition upper_hex_digit (n : N) : ascii :=
  (if n <? 10 then ascii_of_N (48 + n) else ascii_of_N (55 + n))%N.

(** The bytes [encodeURIComponent] leaves as they are: letters, digits,
    [- _ . ! ~ *], the apostrophe and the two parentheses. *)
Definition uri_unreserved (c : ascii) : bool :=
  let n := N_of_ascii c in
  ((65 <=? n) && (n <=? 90) || (97 <=? n) && (n <=? 122) || (48 <=? n) && (n <=? 57)
   || (n =? 45) || (n =? 95) || (n =? 46) || (n =? 33) || (n =? 126) || (n =? 42)
   || (n =? 39) || (n =? 40) || (n =? 41))%N.

Definition percent_byte (c : ascii) : string :=
  let n := N_of_ascii c in
  String "%" (String (upper_hex_digit (n / 16)) (String (upper_hex_digit (n mod 16)) "")).

(** A string the input element holds may carry a lone surrogate, which has
    no UTF-8 form; in the generalized form it shows as the byte [ED]
    followed by a byte from [A0] to [BF]. *)
Fixpoint lone_surrogate (s : string) : bool :=
  match s with
  | EmptyString => false
  | String c rest =>
      match rest with
      | EmptyString => false
      | String d _ =>
          ((N_of_ascii c =? 237) && (160 <=? N_of_ascii d) && (N_of_ascii d <=? 191))%N
          || lone_surrogate rest
      end
  end.

(** [encodeURIComponent(s)] on UTF-8 text: every other byte is written as
    [%XX]. On a string with a lone surrogate the built-in throws a
    [URIError] instead; the properties that follow the page up to its
    [fetch] are stated for names without one. *)
Fixpoint encodeURIComponent (s : string) : string :=
  match s with
  | EmptyString => ""
  | String c rest =>
      (if uri_unreserved c then String c "" else percent_byte c)
        +:+ encodeURIComponent rest
  end.

(** [generateRoomName()]. [Date.now()] is an integer of at most 16 digits,
    written in decimal; [substring(2, 8)] takes up to six characters from
    the third on. *)
Definition generateRoomName : P string :=
  fun b r =>
    (r, Resolved ("kairos-" +:+ pretty (Date_now b) +:+ "-"
                  +:+ String.substring 2 6 (Math_random_toString36 b))).

Definition handleConnect : P unit :=
  let* userName := use userName in
  if String.eqb (trim userName) "" then
    setError (Some "Please tell us who you are!")
  else
    setError None;;;
    setConnectionState connecting;;;
    ptry_catch
      (let* roomName := generateRoomName in
       let* response :=
         do_fetch ("/api/token?room=" +:+ encodeURIComponent roomName
                   +:+ "&username=" +:+ encodeURIComponent userName) in
       (if negb (ok response) then
          let* data := await (json response) in
          let* message := get data "error" in
          let* text := toString (or_else message (JStr "Failed to get token")) in
          throw (ThrownError text)
        else pret tt);;;
       let* data := await (json response) in
       let* t := get data "token" in
       setToken t;;;
       let* u := get data "url" in
       setServerUrl u;;;
       setConnectionState connected)
      (fun err =>
         setError (Some (match err with
                         | ThrownError message => message
                         | ThrownOther => "Connection failed"
                         end));;;
         setConnectionState disconnected).

Definition handleDisconnect : P unit :=
  setToken (Value JNull);;;
  setServerUrl (Value JNull);;;
  setConnectionState disconnected.


(** A handler started in the state [s], nothing fetched yet. *)
Definition started (s : HomeState) : PageRun := {| view := s; fetched := [] |}.

End Home.

(** * From the page to the route *)

(** What lies between [fetch] in the page and [request.nextUrl] in the
    route is the platform: the URL parser, which cuts the query out of the
    URL and percent-encodes it, and the form-urlencoded parser behind
    [searchParams]. Both are written out byte by byte, on UTF-8 text. *)

(** The URL parser drops ASCII tabs and newlines wherever they are. *)
Fixpoint remove_tab_newline (s : string) : string :=
  match s with
  | EmptyString => ""
  | String c rest =>
      let n := N_of_ascii c in
      if ((n =? 9) || (n =? 10) || (n =? 13))%N then remove_tab_newline rest
      else String c (remove_tab_newline rest)
  end.

(** It strips leading and trailing C0 controls and spaces. *)
Fixpoint strip_leading (s : string) : string :=
  match s with
  | EmptyString => ""
  | String c rest => if (N_of_ascii c <=? 32)%N then strip_leading rest else s
  end.

Fixpoint strip_trailing (s : string) : string :=
  match s with
  | EmptyString => ""
  | String c rest =>
      let r := strip_trailing rest in
      if (N_of_ascii c <=? 32)%N && String.eqb r "" then "" else String c r
  end.

(** The fragment starts at the first [#]. *)
Fixpoint before_hash (s : string) : string :=
  match s with
  | EmptyString => ""
  | String c rest => if (N_of_ascii c =? 35)%N then "" else String c (before_hash rest)
  end.

(** The query starts after the first [?]. *)
Fixpoint after_question (s : string) : string :=
  match s with
  | EmptyString => ""
  | String c rest => if (N_of_ascii c =? 63)%N then rest else after_question rest
  end.

(** The query of an http(s) URL is percent-encoded with the special-query
    set: C0 controls, space, the double quote, [#], the apostrophe, [<],
    [>] and every byte above [~]. *)
Definition special_query_byte (c : ascii) : string :=
  let n := N_of_ascii c in
  if ((n <=? 32) || (126 <? n) || (n =? 34) || (n =? 35) || (n =? 39)
      || (n =? 60) || (n =? 62))%N
  then Home.percent_byte c
  else String c "".

Fixpoint special_query_encode (s : string) : string :=
  match s with
  | EmptyString => ""
  | String c rest => special_query_byte c +:+ special_query_encode rest
  end.

(** [url.search] without its [?]. *)
Definition url_search (url : string) : string :=
  special_query_encode
    (after_question (before_hash (strip_trailing (strip_leading (remove_tab_newline url))))).

(** Percent-decoding: [%] followed by two hex digits is one byte; any
    other byte stands for itself. *)
Fixpoint percent_decode (s : string) : string :=
  match s with
  | EmptyString => ""
  | String c rest =>
      if (N_of_ascii c =? 37)%N then
        match rest with
        | String h1 (String h2 rest') =>
            match hex_value h1, hex_value h2 with
            | Some a, Some b => String (ascii_of_N (16 * a + b)) (percent_decode rest')
            | _, _ => String c (percent_decode rest)
            end
        | _ => String c (percent_decode rest)
        end
      else String c (percent_decode rest)
  end.

Fixpoint plus_to_space (s : string) : string :=
  match s with
  | EmptyString => ""
  | String c rest =>
      String (if (N_of_ascii c =? 43)%N then " "%char else c) (plus_to_space rest)
  end.

(** Splits at every [sep]. *)
Fixpoint split_on (sep : ascii) (s : string) : list string :=
  match s with
  | EmptyString => [""]
  | String c rest =>
      if Ascii.eqb c sep then "" :: split_on sep rest
      else
        match split_on sep rest with
        | h :: t => String c h :: t
        | [] => [String c ""]
        end
  end.

(** Splits at the first [=]; without one the value is empty. *)
Fixpoint split_pair (s : string) : string * string :=
  match s with
  | EmptyString => ("", "")
  | String c rest =>
      if (N_of_ascii c =? 61)%N then ("", rest)
      else (String c (fst (split_pair rest)), snd (split_pair rest))
  end.

(** The form-urlencoded parser behind [URLSearchParams]. *)
Definition parse_urlencoded (q : string) : list (string * string) :=
  map (fun seq =>
         (percent_decode (plus_to_space (fst (split_pair seq))),
          percent_decode (plus_to_space (snd (split_pair seq)))))
      (List.filter (fun seq => negb (String.eqb seq "")) (split_on "&" q)).

(** The request the route sees when the page fetches [url]. *)
Definition request_received (url : string) : NextRequest :=
  {| nextUrl := {| searchParams := parse_urlencoded (url_search url) |} |}.

(** The response the page sees when the route answers [resp]: [ok] says
    whether the status is 2xx, [json()] gives the body back. *)
Definition delivered (resp : NextResponse) : Home.FetchResponse :=
  {| Home.ok := (200 <=? status resp) && (status resp <=? 299);
     Home.json := Home.Resolved (body resp) |}.

(** The name [generateRoomName] returns in the browser [b]. *)
Definition generated_room (b : Home.Browser) : string :=
  match snd (Home.generateRoomName b (Home.started Home.initial)) with
  | Home.Resolved room => room
  | _ => ""
  end.

(** A browser whose network is the route itself, run in the world [w]. An
    exception of the handler comes back as a 500 without a JSON body. *)
Definition browser_on (w : World) : Home.Browser :=
  {| Home.Date_now := 1700000000000;
     Home.Math_random_toString36 := "0.ab12cdxyz";
     Home.fetch := fun url =>
                     match outcome (request_received url) w [] with
                     | Normal resp => Home.Resolved (delivered resp)
                     | Throw _ =>
                         Home.Resolved
                           {| Home.ok := false;
                              Home.json := Home.Rejected
                                             (Home.ThrownError "Unexpected end of JSON input") |}
                     end;
     Home.engineMessage := fun fault =>
                             match fault with
                             | Home.ReadOfNull prop =>
                                 "Cannot read properties of null (reading '" +:+ prop +:+ "')"
                             | Home.NotPrimitive => "Cannot convert object to primitive value"
                             end |}.

(** The page with a name typed in. *)
Definition typed (name : string) : Home.HomeState :=
  {| Home.connectionState := Home.disconnected;
     Home.token := Home.Value JNull;
     Home.serverUrl := Home.Value JNull;
     Home.userName := name;
     Home.error := None |}.

(** Whether every byte of [s] passes the test [p]. *)
Fixpoint all_bytes (p : ascii -> bool) (s : string) : bool :=
  match s with
  | EmptyString => true
  | String c rest => p c && all_bytes p rest
  end.

(** The bytes the URL parser leaves where they are: above the space and
    not [#]. *)
Definition url_stable (c : ascii) : bool :=
  let n := N_of_ascii c in ((32 <? n) && negb (n =? 35))%N.

(** The bytes that neither separate form fields nor stand for a space. *)
Definition field_plain (c : ascii) : bool :=
  let n := N_of_ascii c in (negb (n =? 38) && negb (n =? 43))%N.

(** One byte as [encodeURIComponent] writes it, and as it goes over the
    wire in a query. *)
Definition uri_chunk (c : ascii) : string :=
  if Home.uri_unreserved c then String c "" else Home.percent_byte c.

Definition wire_chunk (c : ascii) : string := special_query_encode (uri_chunk c).

(** The URL [handleConnect] fetches for the name [name] in the browser
    [b]. *)
Definition connect_url (b : Home.Browser) (name : string) : string :=
  "/api/token?room=" +:+ Home.encodeURIComponent (generated_room b)
  +:+ "&username=" +:+ Home.encodeURIComponent name.

(** The state [s] with another connection state and error. *)
Definition settled_as (s : Home.HomeState) (c : Home.ConnectionState) (e : option string)
  : Home.HomeState :=
  {| Home.connectionState := c;
     Home.token := Home.token s;
     Home.serverUrl := Home.serverUrl s;
     Home.userName := Home.userName s;
     Home.error := e |}.


(** ** A third sentence of the specification, as it is written *)

(** The backend cannot be reached and the signing library throws. *)
Definition world_down_unsigned : World :=
  {| process_env := env_full;
     roomBackend := fun _ _ _ => Throw (Error "fetch failed");
     jwtSigner := fun _ _ => Throw (Error "signing failed") |}.

(** "Provisioning error (room creation failed, any cause): recovered
    locally, never surfaced to the caller; issuance proceeds", read as: the
    response is the 200 success shape whenever [createRoom] fails. *)
Definition provisioning_failure_always_answered : Prop :=
  forall (req : NextRequest) (w : World) (log : list Event)
         (room user key secret url : string) (e : JsError),
    valid_request req room user ->
    configured w key secret url ->
    roomBackend w log (new_RoomServiceClient url key secret)
      (CreateRoom (room_policy room user)) = Throw e ->
    exists jwt, outcome req w log = Normal (success_response jwt url).

(** ** Tactics *)

(** Rewrites a run with the equation [Hrun] of [GET]. *)
Ltac run_with Hrun :=
  unfold outcome, emitted; rewrite Hrun; cbn [fst snd];
  rewrite ?drop_app_length, ?drop_all.

(** Expands the local names a case of [session] brings in. *)
Ltac unlet := repeat match goal with x := _ |- _ => subst x end.

(** Settles a closed statement about a concrete run by evaluation. *)
Ltac by_evaluation :=
  repeat split; try (vm_compute; reflexivity); try discriminate.

(** * Properties *)

(** ** Running the handler *)

Lemma truthy_present (x : option string) (s : string) :
  present x s -> truthy x = Some s.
Proof.
  intros [-> Hs]. destruct s; [congruence | reflexivity].
Qed.

Lemma truthy_falsy (x : option string) :
  missing_or_empty x -> truthy x = None.
Proof.
  intros [-> | ->]; reflexivity.
Qed.

Lemma truthy_cases (x : option string) :
  missing_or_empty x \/ exists s, present x s.
Proof.
  destruct x as [[| c s] |].
  - left. now right.
  - right. exists (String c s). split; [reflexivity | discriminate].
  - left. now left.
Qed.

Lemma emitted_app (req : NextRequest) (w : World) (log new : list Event) :
  fst (GET req w log) = log ++ new -> emitted req w log = new.
Proof.
  unfold emitted. intros ->. apply drop_app_length.
Qed.

(** A request without a room or a username is answered at once. *)
Lemma GET_missing_params (req : NextRequest) (w : World) (log : list Event) :
  missing_or_empty (query req "room") \/ missing_or_empty (query req "username") ->
  GET req w log = (log, Normal (error_response 400 "Missing room or username")).
Proof.
  unfold GET, query.
  intros [H | H]; apply truthy_falsy in H.
  - rewrite H. reflexivity.
  - destruct (truthy (URLSearchParams_get _ "room")); try rewrite H; reflexivity.
Qed.

(** With a room and a username but an incomplete configuration the handler
    logs and answers with the configuration error. *)
Lemma GET_missing_config (req : NextRequest) (w : World) (log : list Event)
      (room user : string) :
  valid_request req room user -> config_incomplete w ->
  GET req w log =
    (log ++ [EvConsoleError [LStr "LiveKit credentials not set"]],
     Normal (error_response 500 "Server configuration error")).
Proof.
  intros [Hr Hu] Hc.
  apply truthy_present in Hr, Hu.
  unfold GET, query in *. rewrite Hr, Hu.
  unfold bind at 1 2 3. unfold getenv.
  destruct Hc as [H | [H | H]]; apply truthy_falsy in H.
  - rewrite H. reflexivity.
  - destruct (truthy (_ !! "LIVEKIT_API_KEY")); try rewrite H; reflexivity.
  - destruct (truthy (_ !! "LIVEKIT_API_KEY")); try reflexivity.
    destruct (truthy (_ !! "LIVEKIT_API_SECRET")); try rewrite H; reflexivity.
Qed.

Lemma GET_session (req : NextRequest) (w : World) (log : list Event)
      (room user key secret url : string) :
  valid_request req room user -> configured w key secret url ->
  exists new out,
    GET req w log = (log ++ new, out) /\
    session w log key secret url room user new out.
Proof.
  intros [Hr Hu] (Hk & Hs & Hl).
  apply truthy_present in Hr, Hu, Hk, Hs, Hl.
  unfold GET, query in *. rewrite Hr, Hu.
  unfold bind at 1 2 3. unfold getenv. rewrite Hk, Hs, Hl.
  unfold try_catch, bind, createRoom, room_call, toJwt, console_error, ret.
  change (addGrant _ _) with (credential key secret room user).
  change {| name := room; emptyTimeout := _; maxParticipants := _; metadata := _ |}
    with (room_policy room user).
  destruct (roomBackend w log _ _) as [[] | e] eqn:Hcreate.
  - destruct (jwtSigner w (log ++ [_]) _) as [jwt | e] eqn:Hsign.
    + eexists _, _. split.
      * rewrite <- app_assoc. reflexivity.
      * now apply session_created.
    + cbn iota.
      destruct (jwtSigner w (((log ++ [_]) ++ [_]) ++ [_]) _) as [jwt | e'] eqn:Hagain;
        rewrite <- !app_assoc in Hagain; cbn [app] in Hagain.
      * eexists _, _. split.
        -- rewrite <- !app_assoc. cbn [app]. reflexivity.
        -- now apply (session_signed_again w log key secret url room user e (Normal jwt)).
      * eexists _, _. split.
        -- rewrite <- !app_assoc. cbn [app]. reflexivity.
        -- now apply (session_signed_again w log key secret url room user e (Throw e')).
  - cbn iota.
    destruct (jwtSigner w ((log ++ [_]) ++ [_]) _) as [jwt | e'] eqn:Hsign;
      rewrite <- !app_assoc in Hsign; cbn [app] in Hsign.
    + eexists _, _. split.
      * rewrite <- !app_assoc. cbn [app]. reflexivity.
      * now apply (session_recovered w log key secret url room user e (Normal jwt)).
    + eexists _, _. split.
      * rewrite <- !app_assoc. cbn [app]. reflexivity.
      * now apply (session_recovered w log key secret url room user e (Throw e')).
Qed.

(** The same, read through [emitted] and [outcome]. *)
Lemma run_session (req : NextRequest) (w : World) (log : list Event)
      (room user key secret url : string) :
  valid_request req room user -> configured w key secret url ->
  fst (GET req w log) = log ++ emitted req w log /\
  session w log key secret url room user (emitted req w log) (outcome req w log).
Proof.
  intros Hv Hc.
  destruct (GET_session req w log room user key secret url Hv Hc) as (new & out & Hrun & Hs).
  unfold outcome. rewrite (emitted_app req w log new); rewrite Hrun; auto.
Qed.

Lemma request_cases (req : NextRequest) :
  (missing_or_empty (query req "room") \/ missing_or_empty (query req "username")) \/
  exists room user, valid_request req room user.
Proof.
  destruct (truthy_cases (query req "room")) as [H | [room Hr]]; [now left; left |].
  destruct (truthy_cases (query req "username")) as [H | [user Hu]]; [now left; right |].
  right. now exists room, user.
Qed.

Lemma config_cases (w : World) :
  config_incomplete w \/ exists key secret url, configured w key secret url.
Proof.
  unfold config_incomplete, configured.
  destruct (truthy_cases (process_env w !! "LIVEKIT_API_KEY")) as [H | [key Hk]]; [now left; left |].
  destruct (truthy_cases (process_env w !! "LIVEKIT_API_SECRET")) as [H | [secret Hs]];
    [now left; right; left |].
  destruct (truthy_cases (process_env w !! "LIVEKIT_URL")) as [H | [url Hl]];
    [now left; right; right |].
  right. now exists key, secret, url.
Qed.

Lemma config_absent_incomplete (w : World) :
  config_absent w -> config_incomplete w.
Proof.
  unfold config_absent, config_incomplete, missing_or_empty. tauto.
Qed.

(** ** The configuration guard *)

(** C1, counterexample. The sentence as written fails: a request without a room, in a world
    without the signing key, is answered 400, not 500. *)
Lemma config_error_for_every_request_fails :
  ~ config_error_for_every_request.
Proof.
  intros H.
  destruct (H (request_of "" "Alex") world_no_key []) as [[message Hout] _].
  - left. vm_compute. reflexivity.
  - vm_compute in Hout. discriminate Hout.
Qed.

(** C1 (amended). When one of the three configuration values is absent (or
    set to the empty string), the handler makes no room call and signs
    nothing, whatever the request; and every request that carries a
    non-empty room and username is answered with status 500 and the body
    [{ error: "Server configuration error" }]. *)
Theorem config_error_for_valid_requests
        (req : NextRequest) (w : World) (log : list Event) :
  config_incomplete w ->
  room_calls (emitted req w log) = [] /\
  signed (emitted req w log) = [] /\
  (forall room user, valid_request req room user ->
     outcome req w log = Normal (error_response 500 "Server configuration error")).
Proof.
  intros Hc.
  destruct (request_cases req) as [Hbad | (room & user & Hv)].
  - pose proof (GET_missing_params req w log Hbad) as Hrun.
    run_with Hrun. repeat split.
    intros room user [[Hr Hr'] [Hu Hu']].
    exfalso. destruct Hbad as [[H | H] | [H | H]]; congruence.
  - pose proof (GET_missing_config req w log room user Hv Hc) as Hrun.
    run_with Hrun. repeat split.
Qed.

Lemma config_error_for_valid_requests_witness :
  config_incomplete world_no_key /\
  valid_request request_alex demo_room "Alex" /\
  room_calls (emitted request_alex world_no_key []) = [] /\
  signed (emitted request_alex world_no_key []) = [] /\
  outcome request_alex world_no_key []
    = Normal (error_response 500 "Server configuration error").
Proof.
  assert (Hc : config_incomplete world_no_key) by (left; left; vm_compute; reflexivity).
  assert (Hv : valid_request request_alex demo_room "Alex") by by_evaluation.
  destruct (config_error_for_valid_requests request_alex world_no_key [] Hc)
    as (Hrooms & Hsigned & Hout).
  exact (conj Hc (conj Hv (conj Hrooms (conj Hsigned (Hout _ _ Hv))))).
Defined.

(** ** The request validator *)

(** C2, counterexample. The sentence as written fails: a room name of one space is empty after
    trimming, yet the room is created and a token is signed for it. *)
Lemma blank_request_rejected_fails :
  ~ blank_request_rejected.
Proof.
  intros H.
  destruct (H (request_of " " "Alex") world_strict []) as (Hout & _).
  - left. vm_compute. reflexivity.
  - vm_compute in Hout. discriminate Hout.
Qed.

(** C2 (amended). When the room parameter or the username parameter is
    missing or is the empty string, the handler answers with status 400 and
    the body [{ error: "Missing room or username" }], and makes no outbound
    call at all: no room is created and nothing is signed. The value is not
    trimmed. *)
Theorem missing_parameters_rejected
        (req : NextRequest) (w : World) (log : list Event) :
  missing_or_empty (query req "room") \/ missing_or_empty (query req "username") ->
  outcome req w log = Normal (error_response 400 "Missing room or username") /\
  emitted req w log = [] /\
  room_calls (emitted req w log) = [] /\
  signed (emitted req w log) = [].
Proof.
  intros Hbad.
  pose proof (GET_missing_params req w log Hbad) as Hrun.
  run_with Hrun. repeat split.
Qed.

Lemma missing_parameters_rejected_witness :
  (missing_or_empty (query (request_of "" "Alex") "room") \/
   missing_or_empty (query (request_of "" "Alex") "username")) /\
  outcome (request_of "" "Alex") world_strict []
    = Normal (error_response 400 "Missing room or username") /\
  emitted (request_of "" "Alex") world_strict [] = [] /\
  room_calls (emitted (request_of "" "Alex") world_strict []) = [] /\
  signed (emitted (request_of "" "Alex") world_strict []) = [].
Proof.
  assert (H : missing_or_empty (query (request_of "" "Alex") "room") \/
              missing_or_empty (query (request_of "" "Alex") "username"))
    by (left; right; reflexivity).
  exact (conj H (missing_parameters_rejected (request_of "" "Alex") world_strict [] H)).
Defined.

(** ** Shared facts about valid, configured runs *)

Lemma session_signs (w : World) (log new : list Event) (out : Completion NextResponse)
      (key secret url room user : string) :
  session w log key secret url room user new out ->
  signed new <> [] /\
  Forall (fun tok => tok = credential key secret room user) (signed new).
Proof.
  intros Hs. destruct Hs; cbn; split; try discriminate; repeat constructor.
Qed.

Lemma session_creates_once (w : World) (log new : list Event)
      (out : Completion NextResponse) (key secret url room user : string) :
  session w log key secret url room user new out ->
  room_calls new = [CreateRoom (room_policy room user)].
Proof.
  intros Hs. destruct Hs; reflexivity.
Qed.

Lemma session_response (w : World) (log new : list Event)
      (key secret url room user : string) (resp : NextResponse) :
  session w log key secret url room user new (Normal resp) ->
  exists jwt,
    resp = success_response jwt url /\
    In (EvToJwt (credential key secret room user) (Normal jwt)) new.
Proof.
  intros Hs. inversion Hs as [jwt ? ? ? Hc Hsign Hnew Hout
                             | e c ? ? ? ? Hc Hsign Hagain Hnew Hout
                             | e c ? ? ? ? Hc Hsign Hnew Hout].
  - exists jwt. split; [reflexivity | cbn; tauto].
  - destruct c as [jwt | e']; [| discriminate Hout].
    injection Hout as <-. exists jwt. split; [reflexivity | cbn; tauto].
  - destruct c as [jwt | e']; [| discriminate Hout].
    injection Hout as <-. exists jwt. split; [reflexivity | cbn; tauto].
Qed.

Lemma session_succeeds (w : World) (log new : list Event)
      (out : Completion NextResponse) (key secret url room user : string) :
  signing_works w ->
  session w log key secret url room user new out ->
  exists jwt, out = Normal (success_response jwt url).
Proof.
  intros Hw Hs. destruct Hs as [jwt ? ? ? Hc Hsign
                               | e c ? ? ? ? Hc Hsign Hagain
                               | e c ? ? ? ? Hc Hsign].
  - now exists jwt.
  - destruct (Hw (log ++ [EvRoom client create (Normal ()); EvToJwt tok (Throw e); report]) tok)
      as [jwt Hjwt].
    exists jwt. rewrite <- Hagain, Hjwt. reflexivity.
  - destruct (Hw (log ++ [EvRoom client create (Throw e); report]) tok) as [jwt Hjwt].
    exists jwt. rewrite <- Hsign, Hjwt. reflexivity.
Qed.

(** ** Reading the metadata back *)

Lemma append_nil_l (s : string) : "" +:+ s = s.
Proof. reflexivity. Qed.

Lemma append_cons (c : ascii) (a b : string) : String c a +:+ b = String c (a +:+ b).
Proof. reflexivity. Qed.

Lemma append_assoc (a b c : string) : (a +:+ b) +:+ c = a +:+ (b +:+ c).
Proof.
  induction a as [| x a IH]; rewrite ?append_nil_l, ?append_cons; congruence.
Qed.

(** Reading one escaped byte gives the byte back. *)
Lemma json_read_char (c : ascii) (rest : string) :
  json_read_string (json_escape_char c +:+ rest) =
    match json_read_string rest with
    | Some (txt, k) => Some (String c txt, k)
    | None => None
    end.
Proof.
  destruct c as [[] [] [] [] [] [] [] []];
    match goal with
    | |- context [json_escape_char ?a] =>
        let v := eval vm_compute in (json_escape_char a) in
        change (json_escape_char a) with v
    end;
    rewrite ?append_cons, ?append_nil_l; reflexivity.
Qed.

(** A string literal written by [JSON.stringify] reads back as the string. *)
Lemma json_read_escape (s k : string) :
  json_read_string (json_escape s +:+ dquote +:+ k) = Some (s, k).
Proof.
  induction s as [| c s IH].
  - reflexivity.
  - cbn [json_escape]. rewrite append_assoc, json_read_char, IH. reflexivity.
Qed.

Lemma strip_prefix_app (p s : string) :
  strip_prefix p (p +:+ s) = Some s.
Proof.
  induction p as [| c p IH].
  - destruct s; reflexivity.
  - rewrite append_cons. cbn [strip_prefix]. now rewrite Ascii.eqb_refl.
Qed.

Lemma created_by_of_metadata (room user : string) :
  created_by_of (metadata (room_policy room user)) = Some user.
Proof.
  assert (Hmd : metadata (room_policy room user) =
                ("{" +:+ json_quote "created_by" +:+ ":" +:+ dquote)
                  +:+ (json_escape user +:+ dquote +:+ "}")).
  { cbn [metadata room_policy JSON_stringify]. unfold json_quote at 2.
    rewrite !append_assoc. reflexivity. }
  unfold created_by_of. rewrite Hmd, strip_prefix_app, json_read_escape. reflexivity.
Qed.

(** ** Best-effort provisioning *)

(** C3. A valid request in a configured world whose [createRoom] throws,
    whatever it throws: the exception is written to the console and goes no
    further, the [catch] block hands the credential to [toJwt], and the run
    ends as that signing ends, with the 200 response [{ token, url }] as
    soon as signing answers. Two requests for the same room, one after the
    other, are both answered 200, whatever the backend says to the second
    creation. *)
Theorem provisioning_failure_recovered
        (req1 req2 : NextRequest) (w : World) (log : list Event)
        (room user1 user2 key secret url : string) :
  valid_request req1 room user1 ->
  valid_request req2 room user2 ->
  configured w key secret url ->
  let client := new_RoomServiceClient url key secret in
  let create := CreateRoom (room_policy room user1) in
  let tok := credential key secret room user1 in
  (forall e,
     roomBackend w log client create = Throw e ->
     let report := EvConsoleError [LStr "Error creating room/token:"; LErr e] in
     exists c,
       emitted req1 w log = [EvRoom client create (Throw e); report; EvToJwt tok c] /\
       c = jwtSigner w (log ++ [EvRoom client create (Throw e); report]) tok /\
       outcome req1 w log = settle url c) /\
  (signing_works w ->
     (forall e,
        roomBackend w log client create = Throw e ->
        exists jwt, outcome req1 w log = Normal (success_response jwt url)) /\
     (exists jwt1 jwt2,
        outcome req1 w log = Normal (success_response jwt1 url) /\
        outcome req2 w (fst (GET req1 w log)) = Normal (success_response jwt2 url))).
Proof.
  intros Hv1 Hv2 Hc client create tok.
  destruct (run_session req1 w log room user1 key secret url Hv1 Hc) as [_ Hs1].
  destruct (run_session req2 w (fst (GET req1 w log)) room user2 key secret url Hv2 Hc)
    as [_ Hs2].
  split.
  - intros e He report.
    inversion Hs1 as [jwt' ? ? ? Hcr Hsign Hnew Hres
                     | e' c ? ? ? ? Hcr Hsign Hagain Hnew Hres
                     | e' c ? ? ? ? Hcr Hsign Hnew Hres];
      unlet; try (rewrite Hcr in He; discriminate He).
    rewrite Hcr in He. injection He as ->.
    exists c. repeat split. symmetry. exact Hsign.
  - intros Hw.
    destruct (session_succeeds _ _ _ _ _ _ _ _ _ Hw Hs1) as [jwt1 Hout1].
    destruct (session_succeeds _ _ _ _ _ _ _ _ _ Hw Hs2) as [jwt2 Hout2].
    split; [intros e _; now exists jwt1 | now exists jwt1, jwt2].
Qed.

Lemma provisioning_failure_recovered_witness :
  valid_request request_alex demo_room "Alex" /\
  valid_request request_blake demo_room "Blake" /\
  configured world_strict "devkey" "devsecret" demo_url /\
  signing_works world_strict /\
  roomBackend world_strict log_after_alex
    (new_RoomServiceClient demo_url "devkey" "devsecret")
    (CreateRoom (room_policy demo_room "Blake"))
    = Throw (Error "room already exists") /\
  (exists jwt,
     outcome request_blake world_strict log_after_alex
       = Normal (success_response jwt demo_url)) /\
  (exists jwt1 jwt2,
     outcome request_alex world_strict [] = Normal (success_response jwt1 demo_url) /\
     outcome request_blake world_strict (fst (GET request_alex world_strict []))
       = Normal (success_response jwt2 demo_url)).
Proof.
  assert (Ha : valid_request request_alex demo_room "Alex") by by_evaluation.
  assert (Hb : valid_request request_blake demo_room "Blake") by by_evaluation.
  assert (Hc : configured world_strict "devkey" "devsecret" demo_url) by by_evaluation.
  assert (Hw : signing_works world_strict)
    by (intros l tok; eexists; reflexivity).
  assert (He : roomBackend world_strict log_after_alex
                 (new_RoomServiceClient demo_url "devkey" "devsecret")
                 (CreateRoom (room_policy demo_room "Blake"))
               = Throw (Error "room already exists"))
    by (vm_compute; reflexivity).
  exact (conj Ha (conj Hb (conj Hc (conj Hw (conj He (conj
           (proj1 (proj2 (provisioning_failure_recovered request_blake request_blake
                            world_strict log_after_alex demo_room "Blake" "Blake"
                            "devkey" "devsecret" demo_url Hb Hb Hc) Hw) _ He)
           (proj2 (proj2 (provisioning_failure_recovered request_alex request_blake
                            world_strict [] demo_room "Alex" "Blake"
                            "devkey" "devsecret" demo_url Ha Hb Hc) Hw)))))))).
Defined.

(** C3, counterexample. The sentence as written fails: when [createRoom]
    throws and the [toJwt] of the [catch] block throws too, the run ends
    with that exception and there is no response. *)
Lemma provisioning_failure_always_answered_fails :
  ~ provisioning_failure_always_answered.
Proof.
  intros H.
  destruct (H request_alex world_down_unsigned [] demo_room "Alex"
              "devkey" "devsecret" demo_url (Error "fetch failed"))
    as [jwt Hout].
  - by_evaluation.
  - by_evaluation.
  - reflexivity.
  - vm_compute in Hout. discriminate Hout.
Qed.

(** ** A valid request in a configured world *)

Section ValidConfiguredRun.

(** The request [req] carries the room [room] and the username [user]; the
    world [w] has the key, the secret and the endpoint set. *)
Variables (req : NextRequest) (w : World) (log : list Event).
Variables (room user key secret url : string).
Hypothesis Hvalid : valid_request req room user.
Hypothesis Hconfigured : configured w key secret url.

Lemma the_session :
  session w log key secret url room user (emitted req w log) (outcome req w log).
Proof.
  exact (proj2 (run_session req w log room user key secret url Hvalid Hconfigured)).
Qed.

(** C4. For a valid request in a configured world, every token the
    handler hands to the signing library has the
    username as its identity and carries exactly the grant
    [{ roomJoin: true, room, canPublish: true, canSubscribe: true,
    canPublishData: true, agent: true }], with [room] the requested room;
    at least one such token is signed, and the token of a response is the
    signed form of one of them. Nothing in the grant but [room] depends on
    the request. *)
Theorem issued_token_grants :
  signed (emitted req w log) <> [] /\
  Forall (fun tok =>
            at_identity tok = user /\
            at_video tok = [("roomJoin", JBool true);
                            ("room", JStr room);
                            ("canPublish", JBool true);
                            ("canSubscribe", JBool true);
                            ("canPublishData", JBool true);
                            ("agent", JBool true)])
         (signed (emitted req w log)) /\
  (forall resp,
     outcome req w log = Normal resp ->
     exists jwt tok,
       resp = success_response jwt url /\
       In tok (signed (emitted req w log)) /\
       In (EvToJwt tok (Normal jwt)) (emitted req w log)).
Proof.
  pose proof the_session as Hs.
  destruct (session_signs _ _ _ _ _ _ _ _ _ Hs) as [Hne Hall].
  split; [exact Hne |]. split.
  - eapply Forall_impl; [exact Hall |].
    intros tok ->. split; reflexivity.
  - intros resp Hout. rewrite Hout in Hs.
    destruct (session_response _ _ _ _ _ _ _ _ _ Hs) as (jwt & Hresp & Hin).
    exists jwt, (credential key secret room user).
    split; [exact Hresp |]. split; [| exact Hin].
    clear - Hin. induction (emitted req w log) as [| ev evs IH]; [destruct Hin |].
    destruct Hin as [-> | Hin]; [now left |].
    destruct ev; cbn; auto.
Qed.

(** C5 (the code at the failing input). For a valid request in a
    configured world: when the signing library throws, the [catch] block
    signs again outside any [try], and the exception leaves the handler.
    The run ends with no response at all, neither [{ token, url }] nor
    [{ error }]. *)
Theorem signing_failure_escapes (e : JsError) :
  (forall log' tok, jwtSigner w log' tok = Throw e) ->
  outcome req w log = Throw e /\
  (forall resp, outcome req w log <> Normal resp).
Proof.
  intros Hfail. pose proof the_session as Hs.
  assert (Hout : outcome req w log = Throw e).
  { inversion Hs as [jwt ? ? ? Hcr Hsign Hnew Hres
                    | e' c ? ? ? ? Hcr Hsign Hagain Hnew Hres
                    | e' c ? ? ? ? Hcr Hsign Hnew Hres]; unlet.
    - rewrite Hfail in Hsign. discriminate Hsign.
    - rewrite Hfail in Hagain. subst c. reflexivity.
    - rewrite Hfail in Hsign. subst c. reflexivity. }
  split; [exact Hout |]. intros resp. rewrite Hout. discriminate.
Qed.

(** C6. For a valid request in a configured world, every token the
    handler signs is built with the time-to-live
    ["1h"], the same for all requests; a token issued at time [T] then
    expires at [T] + 3600 s: it is valid at [T] + 59 min and expired at
    [T] + 61 min. *)
Theorem token_lifetime :
  signed (emitted req w log) <> [] /\
  Forall (fun tok =>
            at_ttl tok = "1h" /\
            forall T : Z,
              expiry tok T = Some (T + 3600) /\
              valid_at tok T (T + minutes 59) = true /\
              valid_at tok T (T + minutes 61) = false)
         (signed (emitted req w log)).
Proof.
  destruct (session_signs _ _ _ _ _ _ _ _ _ the_session) as [Hne Hall].
  split; [exact Hne |].
  eapply Forall_impl; [exact Hall |].
  intros tok ->. split; [reflexivity |].
  intros T. unfold valid_at, expiry, minutes.
  change (ttl_seconds (at_ttl (credential key secret room user))) with (Some 3600).
  repeat split; lia.
Qed.

(** C7. For a valid request in a configured world, the handler calls
    [createRoom] once, with the requested room as [name],
    [maxParticipants] 2, [emptyTimeout] 600 seconds and, as [metadata],
    the JSON text of [{ created_by: username }], from which the username
    reads back. *)
Theorem room_creation_policy :
  exists md,
    room_calls (emitted req w log)
      = [CreateRoom {| name := room;
                       emptyTimeout := 600;
                       maxParticipants := 2;
                       metadata := md |}] /\
    md = JSON_stringify (JObj [("created_by", JStr user)]) /\
    created_by_of md = Some user.
Proof.
  exists (metadata (room_policy room user)). split; [| split].
  - exact (session_creates_once _ _ _ _ _ _ _ _ _ the_session).
  - reflexivity.
  - apply created_by_of_metadata.
Qed.

(** C8. For a valid request in a configured world, every response the
    handler gives has status 200 and a body with
    exactly the two properties [token] and [url], where [token] is the
    string the signing library returned and [url] is the value of
    LIVEKIT_URL; this is the response when [createRoom] returns and when
    it throws, as soon as signing answers. *)
Theorem success_response_shape :
  process_env w !! "LIVEKIT_URL" = Some url /\
  (forall resp,
     outcome req w log = Normal resp ->
     exists jwt,
       resp = {| status := 200;
                 body := JObj [("token", JStr jwt); ("url", JStr url)] |} /\
       In (EvToJwt (credential key secret room user) (Normal jwt)) (emitted req w log)) /\
  (signing_works w ->
   (roomBackend w log (new_RoomServiceClient url key secret)
      (CreateRoom (room_policy room user)) = Normal tt ->
    exists jwt,
      outcome req w log
        = Normal {| status := 200;
                    body := JObj [("token", JStr jwt); ("url", JStr url)] |}) /\
   (forall e,
      roomBackend w log (new_RoomServiceClient url key secret)
        (CreateRoom (room_policy room user)) = Throw e ->
      exists jwt,
        outcome req w log
          = Normal {| status := 200;
                      body := JObj [("token", JStr jwt); ("url", JStr url)] |})).
Proof.
  pose proof the_session as Hs.
  split; [apply Hconfigured |]. split.
  - intros resp Hout. rewrite Hout in Hs.
    destruct (session_response _ _ _ _ _ _ _ _ _ Hs) as (jwt & -> & Hin).
    now exists jwt.
  - intros Hw.
    destruct (session_succeeds _ _ _ _ _ _ _ _ _ Hw Hs) as [jwt Hout].
    split; [intros _ | intros e _]; now exists jwt.
Qed.

End ValidConfiguredRun.

Lemma issued_token_grants_witness :
  valid_request request_alex demo_room "Alex" /\
  configured world_strict "devkey" "devsecret" demo_url /\
  signed (emitted request_alex world_strict []) <> [] /\
  Forall (fun tok =>
            at_identity tok = "Alex" /\
            at_video tok = [("roomJoin", JBool true);
                            ("room", JStr demo_room);
                            ("canPublish", JBool true);
                            ("canSubscribe", JBool true);
                            ("canPublishData", JBool true);
                            ("agent", JBool true)])
         (signed (emitted request_alex world_strict [])).
Proof.
  assert (Hv : valid_request request_alex demo_room "Alex") by by_evaluation.
  assert (Hc : configured world_strict "devkey" "devsecret" demo_url) by by_evaluation.
  destruct (issued_token_grants request_alex world_strict [] _ _ _ _ _ Hv Hc)
    as (Hne & Hall & _).
  exact (conj Hv (conj Hc (conj Hne Hall))).
Defined.

Lemma signing_failure_escapes_witness :
  valid_request request_alex demo_room "Alex" /\
  configured world_unsigned "devkey" "devsecret" demo_url /\
  (forall log' tok, jwtSigner world_unsigned log' tok = Throw (Error "signing failed")) /\
  outcome request_alex world_unsigned [] = Throw (Error "signing failed") /\
  (forall resp, outcome request_alex world_unsigned [] <> Normal resp).
Proof.
  assert (Hv : valid_request request_alex demo_room "Alex") by by_evaluation.
  assert (Hc : configured world_unsigned "devkey" "devsecret" demo_url) by by_evaluation.
  assert (Hf : forall log' tok,
             jwtSigner world_unsigned log' tok = Throw (Error "signing failed"))
    by (intros; reflexivity).
  exact (conj Hv (conj Hc (conj Hf
           (signing_failure_escapes request_alex world_unsigned []
              _ _ _ _ _ Hv Hc (Error "signing failed") Hf)))).
Defined.

Lemma token_lifetime_witness :
  valid_request request_alex demo_room "Alex" /\
  configured world_strict "devkey" "devsecret" demo_url /\
  signed (emitted request_alex world_strict []) <> [] /\
  Forall (fun tok =>
            at_ttl tok = "1h" /\
            forall T : Z,
              expiry tok T = Some (T + 3600) /\
              valid_at tok T (T + minutes 59) = true /\
              valid_at tok T (T + minutes 61) = false)
         (signed (emitted request_alex world_strict [])).
Proof.
  assert (Hv : valid_request request_alex demo_room "Alex") by by_evaluation.
  assert (Hc : configured world_strict "devkey" "devsecret" demo_url) by by_evaluation.
  exact (conj Hv (conj Hc (token_lifetime request_alex world_strict [] _ _ _ _ _ Hv Hc))).
Defined.

Lemma room_creation_policy_witness :
  valid_request request_alex demo_room "Alex" /\
  configured world_strict "devkey" "devsecret" demo_url /\
  exists md,
    room_calls (emitted request_alex world_strict [])
      = [CreateRoom {| name := demo_room;
                       emptyTimeout := 600;
                       maxParticipants := 2;
                       metadata := md |}] /\
    md = JSON_stringify (JObj [("created_by", JStr "Alex")]) /\
    created_by_of md = Some "Alex".
Proof.
  assert (Hv : valid_request request_alex demo_room "Alex") by by_evaluation.
  assert (Hc : configured world_strict "devkey" "devsecret" demo_url) by by_evaluation.
  exact (conj Hv (conj Hc
           (room_creation_policy request_alex world_strict [] _ _ _ _ _ Hv Hc))).
Defined.

Lemma success_response_shape_witness :
  valid_request request_blake demo_room "Blake" /\
  configured world_down "devkey" "devsecret" demo_url /\
  signing_works world_down /\
  roomBackend world_down [] (new_RoomServiceClient demo_url "devkey" "devsecret")
    (CreateRoom (room_policy demo_room "Blake")) = Throw (Error "fetch failed") /\
  exists jwt,
    outcome request_blake world_down []
      = Normal {| status := 200;
                  body := JObj [("token", JStr jwt); ("url", JStr demo_url)] |}.
Proof.
  assert (Hv : valid_request request_blake demo_room "Blake") by by_evaluation.
  assert (Hc : configured world_down "devkey" "devsecret" demo_url) by by_evaluation.
  assert (Hw : signing_works world_down) by (intros l tok; eexists; reflexivity).
  exact (conj Hv (conj Hc (conj Hw (conj eq_refl
           (proj2 (proj2 (proj2 (success_response_shape request_blake world_down []
                                   _ _ _ _ _ Hv Hc)) Hw) _ eq_refl))))).
Defined.

(** ** Calls on the room backend *)

(** C9. Whatever the request and the world, a run of the handler makes at
    most one call on the room backend; every call it makes is a
    [createRoom] for the room the request names (never a deletion or an
    update); a valid request in a configured world makes exactly one, and
    any other request makes none. *)
Theorem at_most_one_room_creation
        (req : NextRequest) (w : World) (log : list Event) :
  (length (room_calls (emitted req w log)) <= 1)%nat /\
  Forall (fun call =>
            exists opts, call = CreateRoom opts /\ query req "room" = Some (name opts))
         (room_calls (emitted req w log)) /\
  (forall room user key secret url,
     valid_request req room user -> configured w key secret url ->
     room_calls (emitted req w log) = [CreateRoom (room_policy room user)]) /\
  ((missing_or_empty (query req "room") \/ missing_or_empty (query req "username")
    \/ config_incomplete w) ->
   room_calls (emitted req w log) = []).
Proof.
  assert (Hnone : (missing_or_empty (query req "room")
                   \/ missing_or_empty (query req "username")
                   \/ config_incomplete w) ->
                  room_calls (emitted req w log) = []).
  { intros Hbad.
    destruct (request_cases req) as [Hreq | (room & user & Hv)].
    - pose proof (GET_missing_params req w log Hreq) as Hrun. now run_with Hrun.
    - destruct Hbad as [H | [H | Hc]].
      + pose proof (GET_missing_params req w log (or_introl H)) as Hrun. now run_with Hrun.
      + pose proof (GET_missing_params req w log (or_intror H)) as Hrun. now run_with Hrun.
      + pose proof (GET_missing_config req w log room user Hv Hc) as Hrun.
        now run_with Hrun. }
  assert (Hone : forall room user key secret url,
             valid_request req room user -> configured w key secret url ->
             room_calls (emitted req w log) = [CreateRoom (room_policy room user)]).
  { intros room user key secret url Hv Hc.
    destruct (run_session req w log room user key secret url Hv Hc) as [_ Hs].
    exact (session_creates_once _ _ _ _ _ _ _ _ _ Hs). }
  enough (Hfirst : (length (room_calls (emitted req w log)) <= 1)%nat /\
                   Forall (fun call =>
                             exists opts, call = CreateRoom opts /\
                                          query req "room" = Some (name opts))
                          (room_calls (emitted req w log)))
    by (destruct Hfirst; auto).
  destruct (request_cases req) as [Hreq | (room & user & Hv)].
  - rewrite Hnone by tauto. split; [cbn; lia | constructor].
  - destruct (config_cases w) as [Hc | (key & secret & url & Hc)].
    + rewrite Hnone by tauto. split; [cbn; lia | constructor].
    + rewrite (Hone room user key secret url Hv Hc).
      split; [cbn; lia |].
      constructor; [| constructor].
      exists (room_policy room user). split; [reflexivity | apply Hv].
Qed.

Lemma at_most_one_room_creation_witness :
  valid_request request_alex demo_room "Alex" /\
  configured world_strict "devkey" "devsecret" demo_url /\
  (length (room_calls (emitted request_alex world_strict [])) <= 1)%nat /\
  room_calls (emitted request_alex world_strict [])
    = [CreateRoom (room_policy demo_room "Alex")].
Proof.
  assert (Hv : valid_request request_alex demo_room "Alex") by by_evaluation.
  assert (Hc : configured world_strict "devkey" "devsecret" demo_url) by by_evaluation.
  destruct (at_most_one_room_creation request_alex world_strict [])
    as (Hle & _ & Hone & _).
  exact (conj Hv (conj Hc (conj Hle (Hone _ _ _ _ _ Hv Hc)))).
Defined.

(** ** The two branches *)

(** C10. Take a valid request and two worlds with the same configuration,
    in which signing is the same function of the token, and let
    [createRoom] return in the first and throw in the second. Every token
    signed in either run is the same record (key, secret, identity =
    username, ttl "1h", the same grant), and the two runs end the same way:
    with equal responses, or with the same exception. *)
Theorem branches_issue_same_credential
        (req : NextRequest) (w1 w2 : World) (log1 log2 : list Event)
        (room user key secret url : string)
        (sign : AccessToken -> Completion string) (e : JsError) :
  valid_request req room user ->
  configured w1 key secret url ->
  configured w2 key secret url ->
  (forall log tok, jwtSigner w1 log tok = sign tok) ->
  (forall log tok, jwtSigner w2 log tok = sign tok) ->
  roomBackend w1 log1 (new_RoomServiceClient url key secret)
    (CreateRoom (room_policy room user)) = Normal tt ->
  roomBackend w2 log2 (new_RoomServiceClient url key secret)
    (CreateRoom (room_policy room user)) = Throw e ->
  let tok := {| at_apiKey := key;
                at_apiSecret := secret;
                at_identity := user;
                at_ttl := "1h";
                at_video := [("roomJoin", JBool true);
                             ("room", JStr room);
                             ("canPublish", JBool true);
                             ("canSubscribe", JBool true);
                             ("canPublishData", JBool true);
                             ("agent", JBool true)] |} in
  signed (emitted req w1 log1) <> [] /\
  Forall (fun t => t = tok) (signed (emitted req w1 log1)) /\
  signed (emitted req w2 log2) = [tok] /\
  outcome req w1 log1 = settle url (sign tok) /\
  outcome req w2 log2 = settle url (sign tok) /\
  outcome req w1 log1 = outcome req w2 log2.
Proof.
  intros Hv Hc1 Hc2 Hs1 Hs2 Hok Hthrow. cbv zeta.
  fold (credential key secret room user).
  destruct (run_session req w1 log1 room user key secret url Hv Hc1) as [_ Hr1].
  destruct (run_session req w2 log2 room user key secret url Hv Hc2) as [_ Hr2].
  assert (Ho1 : outcome req w1 log1 = settle url (sign (credential key secret room user))).
  { inversion Hr1 as [jwt ? ? ? Hcr Hsign Hnew Hres
                     | e' c ? ? ? ? Hcr Hsign Hagain Hnew Hres
                     | e' c ? ? ? ? Hcr Hsign Hnew Hres]; unlet.
    - rewrite Hs1 in Hsign. now rewrite Hsign.
    - rewrite Hs1 in Hagain. now subst c.
    - rewrite Hok in Hcr. discriminate Hcr. }
  assert (Ho2 : outcome req w2 log2 = settle url (sign (credential key secret room user))).
  { inversion Hr2 as [jwt ? ? ? Hcr Hsign Hnew Hres
                     | e' c ? ? ? ? Hcr Hsign Hagain Hnew Hres
                     | e' c ? ? ? ? Hcr Hsign Hnew Hres]; unlet.
    - rewrite Hthrow in Hcr. discriminate Hcr.
    - rewrite Hthrow in Hcr. discriminate Hcr.
    - rewrite Hs2 in Hsign. now subst c. }
  assert (Hone : signed (emitted req w2 log2) = [credential key secret room user]).
  { inversion Hr2 as [jwt ? ? ? Hcr Hsign Hnew Hres
                     | e' c ? ? ? ? Hcr Hsign Hagain Hnew Hres
                     | e' c ? ? ? ? Hcr Hsign Hnew Hres]; unlet;
      try (rewrite Hthrow in Hcr; discriminate Hcr).
    reflexivity. }
  split; [exact (proj1 (session_signs _ _ _ _ _ _ _ _ _ Hr1)) |].
  split; [exact (proj2 (session_signs _ _ _ _ _ _ _ _ _ Hr1)) |].
  split; [exact Hone |].
  split; [exact Ho1 |]. split; [exact Ho2 |]. now rewrite Ho1, Ho2.
Qed.

Lemma branches_issue_same_credential_witness :
  valid_request request_alex demo_room "Alex" /\
  configured world_strict "devkey" "devsecret" demo_url /\
  configured world_down "devkey" "devsecret" demo_url /\
  roomBackend world_strict [] (new_RoomServiceClient demo_url "devkey" "devsecret")
    (CreateRoom (room_policy demo_room "Alex")) = Normal tt /\
  roomBackend world_down [] (new_RoomServiceClient demo_url "devkey" "devsecret")
    (CreateRoom (room_policy demo_room "Alex")) = Throw (Error "fetch failed") /\
  signed (emitted request_alex world_down [])
    = [credential "devkey" "devsecret" demo_room "Alex"] /\
  outcome request_alex world_strict [] = outcome request_alex world_down [].
Proof.
  assert (Hv : valid_request request_alex demo_room "Alex") by by_evaluation.
  assert (Hc1 : configured world_strict "devkey" "devsecret" demo_url) by by_evaluation.
  assert (Hc2 : configured world_down "devkey" "devsecret" demo_url) by by_evaluation.
  destruct (branches_issue_same_credential request_alex world_strict world_down [] []
              demo_room "Alex" "devkey" "devsecret" demo_url
              (fun tok => Normal (stub_jwt tok)) (Error "fetch failed")
              Hv Hc1 Hc2 (fun _ _ => eq_refl) (fun _ _ => eq_refl) eq_refl eq_refl)
    as (_ & _ & Hone & _ & _ & Hsame).
  exact (conj Hv (conj Hc1 (conj Hc2 (conj eq_refl (conj eq_refl (conj Hone Hsame)))))).
Defined.

(** * Further properties of the handler *)

(** ** What a run adds to the log *)

Lemma GET_extends (req : NextRequest) (w : World) (log : list Event) :
  fst (GET req w log) = log ++ emitted req w log.
Proof.
  destruct (request_cases req) as [Hbad | (room & user & Hv)].
  - pose proof (GET_missing_params req w log Hbad) as Hrun.
    run_with Hrun. now rewrite app_nil_r.
  - destruct (config_cases w) as [Hc | (key & secret & url & Hc)].
    + pose proof (GET_missing_config req w log room user Hv Hc) as Hrun.
      now run_with Hrun.
    + apply (run_session req w log room user key secret url Hv Hc).
Qed.

(** The three ways a run can go. *)
Lemma run_cases (req : NextRequest) (w : World) (log : list Event) :
  ((missing_or_empty (query req "room") \/ missing_or_empty (query req "username")) /\
   emitted req w log = [] /\
   outcome req w log = Normal (error_response 400 "Missing room or username")) \/
  (exists room user,
     valid_request req room user /\ config_incomplete w /\
     emitted req w log = [EvConsoleError [LStr "LiveKit credentials not set"]] /\
     outcome req w log = Normal (error_response 500 "Server configuration error")) \/
  (exists room user key secret url,
     valid_request req room user /\ configured w key secret url /\
     session w log key secret url room user (emitted req w log) (outcome req w log)).
Proof.
  destruct (request_cases req) as [Hbad | (room & user & Hv)].
  - left. pose proof (GET_missing_params req w log Hbad) as Hrun.
    run_with Hrun. auto.
  - destruct (config_cases w) as [Hc | (key & secret & url & Hc)].
    + right; left. exists room, user.
      pose proof (GET_missing_config req w log room user Hv Hc) as Hrun.
      run_with Hrun. auto.
    + right; right. exists room, user, key, secret, url.
      repeat split; try apply Hv; try apply Hc.
      apply (run_session req w log room user key secret url Hv Hc).
Qed.

(** X1. A run of the handler only extends the log it started from, by at
    most four calls: at most one call on the room backend, at most two calls
    of [toJwt] and at most one call of [console.error]. *)
Theorem call_budget (req : NextRequest) (w : World) (log : list Event) :
  fst (GET req w log) = log ++ emitted req w log /\
  (length (emitted req w log) <= 4)%nat /\
  (length (room_calls (emitted req w log)) <= 1)%nat /\
  (length (signed (emitted req w log)) <= 2)%nat /\
  (length (console_calls (emitted req w log)) <= 1)%nat.
Proof.
  split; [apply GET_extends |].
  destruct (run_cases req w log)
    as [(_ & -> & _) | [(room & user & _ & _ & -> & _)
                       | (room & user & key & secret & url & _ & _ & Hs)]];
    try (cbn; lia).
  destruct Hs; cbn; lia.
Qed.

(** ** Exceptions *)

(** X2. Whatever the request and the world, when a run of the handler ends
    with an exception, the request was valid, the configuration complete,
    and the exception is the one the last call of the run, a [toJwt],
    threw: an exception of [createRoom] never leaves the handler. *)
Theorem throws_only_from_signing
        (req : NextRequest) (w : World) (log : list Event) (e : JsError) :
  outcome req w log = Throw e ->
  exists room user key secret url,
    valid_request req room user /\
    configured w key secret url /\
    last (emitted req w log) = Some (EvToJwt (credential key secret room user) (Throw e)).
Proof.
  intros Hout.
  destruct (run_cases req w log)
    as [(_ & _ & H) | [(room & user & _ & _ & _ & H)
                      | (room & user & key & secret & url & Hv & Hc & Hs)]];
    try (rewrite H in Hout; discriminate Hout).
  exists room, user, key, secret, url. split; [exact Hv |]. split; [exact Hc |].
  rewrite Hout in Hs.
  inversion Hs as [jwt ? ? ? Hcr Hsign Hnew Hres
                  | e' c ? ? ? ? Hcr Hsign Hagain Hnew Hres
                  | e' c ? ? ? ? Hcr Hsign Hnew Hres]; unlet;
    destruct c as [jwt | e'']; try discriminate Hres;
    injection Hres as ->; reflexivity.
Qed.

Lemma throws_only_from_signing_witness :
  outcome request_alex world_unsigned [] = Throw (Error "signing failed") /\
  exists room user key secret url,
    valid_request request_alex room user /\
    configured world_unsigned key secret url /\
    last (emitted request_alex world_unsigned [])
      = Some (EvToJwt (credential key secret room user) (Throw (Error "signing failed"))).
Proof.
  exact (conj eq_refl
           (throws_only_from_signing request_alex world_unsigned []
              (Error "signing failed") eq_refl)).
Defined.



(** ** The console *)

(** X4. The handler writes to the console in two forms only: the fixed
    message of the configuration error, or the fixed message of the [catch]
    block followed by an exception that a call of this very run threw.
    The handler itself passes neither the room, nor the username, nor a
    configuration value to [console.error]. *)
Theorem console_discipline (req : NextRequest) (w : World) (log : list Event) :
  Forall (fun args =>
            args = [LStr "LiveKit credentials not set"] \/
            exists e,
              args = [LStr "Error creating room/token:"; LErr e] /\
              exists ev, In ev (emitted req w log) /\ thrown_by ev = Some e)
         (console_calls (emitted req w log)).
Proof.
  destruct (run_cases req w log)
    as [(_ & -> & _) | [(room & user & _ & _ & -> & _)
                       | (room & user & key & secret & url & _ & _ & Hs)]].
  - constructor.
  - constructor; [now left | constructor].
  - destruct Hs as [jwt ? ? ? Hcr Hsign
                   | e c ? ? ? ? Hcr Hsign Hagain
                   | e c ? ? ? ? Hcr Hsign]; cbn.
    + constructor.
    + constructor; [| constructor]. right. exists e. split; [reflexivity |].
      exists (EvToJwt tok (Throw e)). cbn. tauto.
    + constructor; [| constructor]. right. exists e. split; [reflexivity |].
      exists (EvRoom client create (Throw e)). cbn. tauto.
Qed.

(** X5. When the room is created and the first signing answers, the run
    consists of exactly these two calls, nothing is written to the console,
    and the response is the 200 [{ token, url }]. *)
Theorem quiet_happy_path
        (req : NextRequest) (w : World) (log : list Event)
        (room user key secret url jwt : string) :
  valid_request req room user ->
  configured w key secret url ->
  let client := new_RoomServiceClient url key secret in
  let create := CreateRoom (room_policy room user) in
  let tok := credential key secret room user in
  roomBackend w log client create = Normal tt ->
  jwtSigner w (log ++ [EvRoom client create (Normal tt)]) tok = Normal jwt ->
  emitted req w log = [EvRoom client create (Normal tt); EvToJwt tok (Normal jwt)] /\
  console_calls (emitted req w log) = [] /\
  outcome req w log = Normal (success_response jwt url).
Proof.
  intros Hv Hc client create tok Hcreate Hsigned.
  destruct (run_session req w log room user key secret url Hv Hc) as [_ Hs].
  inversion Hs as [jwt' ? ? ? Hcr Hsign Hnew Hres
                  | e' c ? ? ? ? Hcr Hsign Hagain Hnew Hres
                  | e' c ? ? ? ? Hcr Hsign Hnew Hres]; unlet.
  - rewrite Hsigned in Hsign. injection Hsign as <-. repeat split.
  - rewrite Hsigned in Hsign. discriminate Hsign.
  - rewrite Hcreate in Hcr. discriminate Hcr.
Qed.

Lemma quiet_happy_path_witness :
  valid_request request_alex demo_room "Alex" /\
  configured world_strict "devkey" "devsecret" demo_url /\
  console_calls (emitted request_alex world_strict []) = [] /\
  outcome request_alex world_strict []
    = Normal (success_response "Alex@kairos-1700000000-ab12cd" demo_url).
Proof.
  assert (Hv : valid_request request_alex demo_room "Alex") by by_evaluation.
  assert (Hc : configured world_strict "devkey" "devsecret" demo_url) by by_evaluation.
  destruct (quiet_happy_path request_alex world_strict [] demo_room "Alex"
              "devkey" "devsecret" demo_url "Alex@kairos-1700000000-ab12cd"
              Hv Hc eq_refl eq_refl)
    as (_ & Hquiet & Hout).
  exact (conj Hv (conj Hc (conj Hquiet Hout))).
Defined.

(** ** The status of a response *)

(** X6. A response of the handler has one of three forms, and its status
    tells the cause: 400 comes with the fixed message and only when the
    room or the username is missing or empty; 500 comes with the fixed
    message and only when both are there and a configuration value is
    missing or empty; 200 comes with [{ token, url }] and only when both
    are there and the configuration is complete. *)
Theorem status_tells_the_cause
        (req : NextRequest) (w : World) (log : list Event) (resp : NextResponse) :
  outcome req w log = Normal resp ->
  (status resp = 400 /\
   resp = error_response 400 "Missing room or username" /\
   (missing_or_empty (query req "room") \/ missing_or_empty (query req "username"))) \/
  (status resp = 500 /\
   resp = error_response 500 "Server configuration error" /\
   (exists room user, valid_request req room user) /\
   config_incomplete w) \/
  (status resp = 200 /\
   exists room user key secret url jwt,
     resp = success_response jwt url /\
     valid_request req room user /\
     configured w key secret url).
Proof.
  intros Hout.
  destruct (run_cases req w log)
    as [(Hbad & _ & H) | [(room & user & Hv & Hc & _ & H)
                         | (room & user & key & secret & url & Hv & Hc & Hs)]].
  - rewrite H in Hout. injection Hout as <-. left. auto.
  - rewrite H in Hout. injection Hout as <-. right; left.
    repeat split; eauto.
  - rewrite Hout in Hs.
    destruct (session_response _ _ _ _ _ _ _ _ _ Hs) as (jwt & -> & _).
    right; right. split; [reflexivity |].
    now exists room, user, key, secret, url, jwt.
Qed.

Lemma status_tells_the_cause_witness :
  outcome request_alex world_no_key []
    = Normal (error_response 500 "Server configuration error") /\
  (exists room user, valid_request request_alex room user) /\
  config_incomplete world_no_key.
Proof.
  destruct (status_tells_the_cause request_alex world_no_key []
              (error_response 500 "Server configuration error") eq_refl)
    as [(H & _) | [(_ & _ & Hv & Hc) | (H & _)]].
  - discriminate H.
  - exact (conj eq_refl (conj Hv Hc)).
  - discriminate H.
Defined.

(** ** The key pair *)

(** X7. For a valid request in a configured world, the room client is
    built on the endpoint LIVEKIT_URL with the key LIVEKIT_API_KEY and the
    secret LIVEKIT_API_SECRET, and every token handed to [toJwt] carries
    that same key and secret: provisioning and signing never use different
    credentials, and none comes from the request. *)
Theorem one_key_pair
        (req : NextRequest) (w : World) (log : list Event)
        (room user key secret url : string) :
  valid_request req room user ->
  configured w key secret url ->
  process_env w !! "LIVEKIT_API_KEY" = Some key /\
  process_env w !! "LIVEKIT_API_SECRET" = Some secret /\
  process_env w !! "LIVEKIT_URL" = Some url /\
  Forall (fun ev =>
            keys_of ev = None \/
            keys_of ev = Some (Some url, key, secret) \/
            keys_of ev = Some (None, key, secret))
         (emitted req w log) /\
  Exists (fun ev => keys_of ev = Some (Some url, key, secret)) (emitted req w log) /\
  Exists (fun ev => keys_of ev = Some (None, key, secret)) (emitted req w log).
Proof.
  intros Hv Hc.
  destruct (run_session req w log room user key secret url Hv Hc) as [_ Hs].
  destruct Hc as ([Hk _] & [Hsec _] & [Hu _]).
  repeat (split; [assumption |]).
  destruct Hs; cbn; repeat split;
    repeat (first [ apply Exists_cons_hd; reflexivity
                  | apply Exists_cons_tl
                  | constructor; [cbn; tauto |]
                  | constructor ]).
Qed.

Lemma one_key_pair_witness :
  valid_request request_blake demo_room "Blake" /\
  configured world_strict "devkey" "devsecret" demo_url /\
  Forall (fun ev =>
            keys_of ev = None \/
            keys_of ev = Some (Some demo_url, "devkey", "devsecret") \/
            keys_of ev = Some (None, "devkey", "devsecret"))
         (emitted request_blake world_strict log_after_alex).
Proof.
  assert (Hv : valid_request request_blake demo_room "Blake") by by_evaluation.
  assert (Hc : configured world_strict "devkey" "devsecret" demo_url) by by_evaluation.
  destruct (one_key_pair request_blake world_strict log_after_alex _ _ _ _ _ Hv Hc)
    as (_ & _ & _ & Hall & _).
  exact (conj Hv (conj Hc Hall)).
Defined.

(** ** Parameters the handler does not read *)

Lemma URLSearchParams_get_app (params extra : list (string * string))
      (name value : string) :
  URLSearchParams_get params name = Some value ->
  URLSearchParams_get (params ++ extra) name = Some value.
Proof.
  induction params as [| [k v] params IH]; cbn; [discriminate |].
  destruct (String.eqb k name); auto.
Qed.

Lemma GET_reads_two_parameters (req1 req2 : NextRequest) :
  query req1 "room" = query req2 "room" ->
  query req1 "username" = query req2 "username" ->
  GET req1 = GET req2.
Proof.
  unfold GET, query. intros -> ->. reflexivity.
Qed.

(** X8. Only the first [room] and the first [username] of the query count:
    once the query holds both, whatever parameters follow (repeated [room]
    or [username] pairs included) change neither the calls the handler
    makes nor its answer. *)
Theorem later_parameters_ignored
        (params extra : list (string * string)) (room user : string)
        (w : World) (log : list Event) :
  URLSearchParams_get params "room" = Some room ->
  URLSearchParams_get params "username" = Some user ->
  GET {| nextUrl := {| searchParams := params ++ extra |} |} w log
    = GET {| nextUrl := {| searchParams := params |} |} w log.
Proof.
  intros Hr Hu.
  rewrite (GET_reads_two_parameters
             {| nextUrl := {| searchParams := params ++ extra |} |}
             {| nextUrl := {| searchParams := params |} |}); [reflexivity | |];
    unfold query; cbn [nextUrl searchParams].
  - rewrite Hr. now apply URLSearchParams_get_app.
  - rewrite Hu. now apply URLSearchParams_get_app.
Qed.

Lemma later_parameters_ignored_witness :
  URLSearchParams_get [("room", demo_room); ("username", "Alex")] "room" = Some demo_room /\
  URLSearchParams_get [("room", demo_room); ("username", "Alex")] "username" = Some "Alex" /\
  GET {| nextUrl := {| searchParams :=
                         [("room", demo_room); ("username", "Alex")]
                           ++ [("room", "other"); ("username", ""); ("debug", "1")] |} |}
      world_strict []
    = GET request_alex world_strict [].
Proof.
  exact (conj eq_refl (conj eq_refl
           (later_parameters_ignored
              [("room", demo_room); ("username", "Alex")]
              [("room", "other"); ("username", ""); ("debug", "1")]
              demo_room "Alex" world_strict [] eq_refl eq_refl))).
Defined.

(** * The page and the route together *)

(** ** Strings of plain bytes *)

Lemma all_bytes_app (p : ascii -> bool) (a b : string) :
  all_bytes p (a +:+ b) = all_bytes p a && all_bytes p b.
Proof.
  induction a as [| c a IH]; [reflexivity |].
  rewrite append_cons. cbn [all_bytes]. rewrite IH. now rewrite andb_assoc.
Qed.

Lemma append_nil_r (s : string) : s +:+ "" = s.
Proof.
  induction s as [| c s IH]; [reflexivity |]. rewrite append_cons. now rewrite IH.
Qed.

Lemma remove_tab_newline_stable (s : string) :
  all_bytes url_stable s = true -> remove_tab_newline s = s.
Proof.
  induction s as [| c s IH]; [reflexivity |].
  cbn [all_bytes remove_tab_newline]. intros [Hc Hs]%andb_true_iff.
  rewrite (IH Hs). unfold url_stable in Hc.
  destruct (N_of_ascii c =? 9)%N eqn:E9; [apply N.eqb_eq in E9; rewrite E9 in Hc; discriminate |].
  destruct (N_of_ascii c =? 10)%N eqn:E10; [apply N.eqb_eq in E10; rewrite E10 in Hc; discriminate |].
  destruct (N_of_ascii c =? 13)%N eqn:E13; [apply N.eqb_eq in E13; rewrite E13 in Hc; discriminate |].
  reflexivity.
Qed.

Lemma strip_trailing_stable (s : string) :
  all_bytes url_stable s = true -> strip_trailing s = s.
Proof.
  induction s as [| c s IH]; [reflexivity |].
  cbn [all_bytes strip_trailing]. intros [Hc Hs]%andb_true_iff.
  rewrite (IH Hs). unfold url_stable in Hc.
  apply andb_true_iff in Hc as [Hc _]. apply N.ltb_lt in Hc.
  destruct (N_of_ascii c <=? 32)%N eqn:E; [apply N.leb_le in E; lia | reflexivity].
Qed.

Lemma before_hash_stable (s : string) :
  all_bytes url_stable s = true -> before_hash s = s.
Proof.
  induction s as [| c s IH]; [reflexivity |].
  cbn [all_bytes before_hash]. intros [Hc Hs]%andb_true_iff.
  rewrite (IH Hs). unfold url_stable in Hc.
  apply andb_true_iff in Hc as [_ Hc].
  destruct (N_of_ascii c =? 35)%N; [discriminate | reflexivity].
Qed.

Lemma special_query_encode_app (a b : string) :
  special_query_encode (a +:+ b) = special_query_encode a +:+ special_query_encode b.
Proof.
  induction a as [| c a IH]; [reflexivity |].
  rewrite append_cons. cbn [special_query_encode]. now rewrite IH, append_assoc.
Qed.

Lemma plus_to_space_plain (s : string) :
  all_bytes field_plain s = true -> plus_to_space s = s.
Proof.
  induction s as [| c s IH]; [reflexivity |].
  cbn [all_bytes plus_to_space]. intros [Hc Hs]%andb_true_iff.
  rewrite (IH Hs). unfold field_plain in Hc.
  apply andb_true_iff in Hc as [_ Hc].
  destruct (N_of_ascii c =? 43)%N; [discriminate | reflexivity].
Qed.

Lemma split_on_plain (a k : string) :
  all_bytes field_plain a = true ->
  split_on "&" (a +:+ "&" +:+ k) = a :: split_on "&" k.
Proof.
  induction a as [| c a IH].
  - reflexivity.
  - cbn [all_bytes]. intros [Hc Hs]%andb_true_iff.
    rewrite append_cons. cbn [split_on]. rewrite (IH Hs).
    unfold field_plain in Hc. apply andb_true_iff in Hc as [Hc _].
    destruct (Ascii.eqb c "&") eqn:E; [| reflexivity].
    apply Ascii.eqb_eq in E. subst c. discriminate Hc.
Qed.

Lemma split_on_last (a : string) :
  all_bytes field_plain a = true -> split_on "&" a = [a].
Proof.
  induction a as [| c a IH].
  - reflexivity.
  - cbn [all_bytes]. intros [Hc Hs]%andb_true_iff.
    cbn [split_on]. rewrite (IH Hs).
    unfold field_plain in Hc. apply andb_true_iff in Hc as [Hc _].
    destruct (Ascii.eqb c "&") eqn:E; [| reflexivity].
    apply Ascii.eqb_eq in E. subst c. discriminate Hc.
Qed.

(** ** One byte, encoded and sent *)

Lemma uri_chunk_stable (c : ascii) :
  all_bytes url_stable (uri_chunk c) = true.
Proof.
  destruct c as [[] [] [] [] [] [] [] []]; reflexivity.
Qed.

Lemma wire_chunk_plain (c : ascii) :
  all_bytes field_plain (wire_chunk c) = true.
Proof.
  destruct c as [[] [] [] [] [] [] [] []]; reflexivity.
Qed.

Lemma percent_decode_wire_chunk (c : ascii) (k : string) :
  percent_decode (wire_chunk c +:+ k) = String c (percent_decode k).
Proof.
  destruct c as [[] [] [] [] [] [] [] []]; reflexivity.
Qed.

Lemma encodeURIComponent_stable (s : string) :
  all_bytes url_stable (Home.encodeURIComponent s) = true.
Proof.
  induction s as [| c s IH]; [reflexivity |].
  cbn [Home.encodeURIComponent]. fold (uri_chunk c).
  now rewrite all_bytes_app, uri_chunk_stable, IH.
Qed.

Lemma wire_plain (s : string) :
  all_bytes field_plain (special_query_encode (Home.encodeURIComponent s)) = true.
Proof.
  induction s as [| c s IH]; [reflexivity |].
  cbn [Home.encodeURIComponent]. fold (uri_chunk c).
  rewrite special_query_encode_app, all_bytes_app. fold (wire_chunk c).
  now rewrite wire_chunk_plain, IH.
Qed.

Lemma percent_decode_wire (s : string) :
  percent_decode (special_query_encode (Home.encodeURIComponent s)) = s.
Proof.
  induction s as [| c s IH]; [reflexivity |].
  cbn [Home.encodeURIComponent]. fold (uri_chunk c).
  rewrite special_query_encode_app. fold (wire_chunk c).
  now rewrite percent_decode_wire_chunk, IH.
Qed.

(** ** The query, from [fetch] to [searchParams] *)

Lemma strip_leading_stable (s : string) :
  all_bytes url_stable s = true -> strip_leading s = s.
Proof.
  destruct s as [| c s]; [reflexivity |].
  cbn [all_bytes strip_leading]. intros [Hc _]%andb_true_iff.
  unfold url_stable in Hc. apply andb_true_iff in Hc as [Hc _]. apply N.ltb_lt in Hc.
  destruct (N_of_ascii c <=? 32)%N eqn:E; [apply N.leb_le in E; lia | reflexivity].
Qed.

Lemma url_search_of_fetch (room user : string) :
  url_search ("/api/token?room=" +:+ Home.encodeURIComponent room
              +:+ "&username=" +:+ Home.encodeURIComponent user)
  = ("room=" +:+ special_query_encode (Home.encodeURIComponent room))
      +:+ "&" +:+ ("username=" +:+ special_query_encode (Home.encodeURIComponent user)).
Proof.
  assert (Hstable : all_bytes url_stable
                      ("/api/token?room=" +:+ Home.encodeURIComponent room
                       +:+ "&username=" +:+ Home.encodeURIComponent user) = true).
  { rewrite !all_bytes_app, !encodeURIComponent_stable. reflexivity. }
  unfold url_search.
  rewrite (remove_tab_newline_stable _ Hstable), (strip_leading_stable _ Hstable),
    (strip_trailing_stable _ Hstable), (before_hash_stable _ Hstable).
  change (after_question ("/api/token?room=" +:+ ?x)) with ("room=" +:+ x).
  rewrite !special_query_encode_app, !append_assoc. reflexivity.
Qed.

(** X9. The URL [handleConnect] fetches brings the room name and the
    username to the route unchanged, whatever bytes they hold: after
    [encodeURIComponent], the URL parser and the form-urlencoded parser,
    [searchParams] holds exactly the pair [room] and the pair [username],
    with the values the page had. *)
Theorem query_round_trip (room user : string) :
  searchParams (nextUrl (request_received
                           ("/api/token?room=" +:+ Home.encodeURIComponent room
                            +:+ "&username=" +:+ Home.encodeURIComponent user)))
  = [("room", room); ("username", user)].
Proof.
  unfold request_received. cbn [nextUrl searchParams].
  rewrite url_search_of_fetch. unfold parse_urlencoded.
  rewrite split_on_plain
    by (rewrite all_bytes_app, wire_plain; reflexivity).
  rewrite split_on_last
    by (rewrite all_bytes_app, wire_plain; reflexivity).
  cbn [List.filter].
  change (String.eqb ("room=" +:+ ?x) "") with false.
  change (String.eqb ("username=" +:+ ?x) "") with false.
  cbn [negb map].
  change (split_pair ("room=" +:+ ?x)) with ("room", x).
  change (split_pair ("username=" +:+ ?x)) with ("username", x).
  cbn [fst snd].
  rewrite !(plus_to_space_plain _ (wire_plain _)), !percent_decode_wire.
  reflexivity.
Qed.

(** * Properties of the page *)

Import Home.

Lemma not_blank_eqb (name : string) :
  trim name <> "" -> String.eqb (trim name) "" = false.
Proof.
  intros H. destruct (String.eqb (trim name) "") eqn:E; [| reflexivity].
  apply String.eqb_eq in E. contradiction.
Qed.

Lemma not_blank_not_empty (name : string) :
  trim name <> "" -> name <> "".
Proof.
  intros H ->. now apply H.
Qed.

(** Opens [handleConnect] for a name that is not blank. *)
Ltac open_connect Hname :=
  unfold handleConnect, pbind, ptry_catch, use, setError, setConnectionState, setToken,
    setServerUrl, update, generateRoomName, do_fetch, await, get, toString, throw, pret;
  cbn [view fetched connectionState token serverUrl userName error fst snd];
  rewrite (not_blank_eqb _ Hname).

(** X10. With a name that is empty or all whitespace, [handleConnect]
    fetches nothing: it only sets the error "Please tell us who you are!"
    and leaves the connection state, the token and the server URL as they
    were. *)
Theorem blank_name_is_not_sent (b : Browser) (r : PageRun) :
  trim (userName (view r)) = "" ->
  handleConnect b r
  = ({| view := settled_as (view r) (connectionState (view r))
                  (Some "Please tell us who you are!");
        fetched := fetched r |},
     Resolved tt).
Proof.
  intros Hblank. unfold handleConnect, pbind, use.
  cbn [view]. rewrite Hblank. reflexivity.
Qed.

Lemma blank_name_is_not_sent_witness :
  trim (userName (view (started (typed "  ")))) = "" /\
  handleConnect (browser_on world_strict) (started (typed "  "))
  = ({| view := settled_as (typed "  ") disconnected (Some "Please tell us who you are!");
        fetched := [] |},
     Resolved tt).
Proof.
  exact (conj eq_refl
           (blank_name_is_not_sent (browser_on world_strict) (started (typed "  ")) eq_refl)).
Defined.

(** X11. [handleConnect] never rejects and never changes the name. With a
    name that is not blank and holds no lone surrogate it fetches exactly
    one URL, the token route with the generated room and the name. It stays
    in "connecting" only when [fetch] or [json()] never settles; once they
    have settled it ends connected with the error cleared, or disconnected
    with an error message set and the token and server URL untouched. *)
Theorem connect_settles (b : Browser) (r : PageRun) :
  (forall t, snd (handleConnect b r) <> Rejected t) /\
  userName (view (fst (handleConnect b r))) = userName (view r) /\
  (trim (userName (view r)) <> "" ->
   lone_surrogate (userName (view r)) = false ->
   fetched (fst (handleConnect b r))
     = fetched r ++ [connect_url b (userName (view r))] /\
   ((snd (handleConnect b r) = Resolved tt /\
     connectionState (view (fst (handleConnect b r))) = connected /\
     error (view (fst (handleConnect b r))) = None) \/
    (snd (handleConnect b r) = Resolved tt /\
     exists message,
       view (fst (handleConnect b r))
         = settled_as (view r) disconnected (Some message)) \/
    (snd (handleConnect b r) = Pending /\
     view (fst (handleConnect b r)) = settled_as (view r) connecting None /\
     (fetch b (connect_url b (userName (view r))) = Pending \/
      exists resp,
        fetch b (connect_url b (userName (view r))) = Resolved resp /\
        json resp = Pending)))).
Proof.
  destruct (String.eqb (trim (userName (view r))) "") eqn:Hblank.
  - apply String.eqb_eq in Hblank.
    rewrite (blank_name_is_not_sent b r Hblank). cbn [fst snd view settled_as userName].
    split; [discriminate |]. split; [reflexivity |]. intros H. contradiction.
  - assert (Hname : trim (userName (view r)) <> "")
      by (intros H; rewrite H in Hblank; discriminate Hblank).
    open_connect Hname.
    change ("/api/token?room=" +:+ _ +:+ "&username=" +:+ _)
      with (connect_url b (userName (view r))).
    destruct (fetch b (connect_url b (userName (view r)))) as [[okay body] | t |] eqn:Hfetch;
      cbn [ok json negb].
    + destruct okay; cbn [negb];
        destruct body as [[| flag | text | props] | t |]; cbn;
        try (destruct (lookup_prop props "error") as [| [| [] | [] | inner]]; cbn);
        try (destruct (lookup_prop inner "toString"); cbn);
        (split; [discriminate |]; split; [reflexivity |]; intros _ _;
         split; [reflexivity |];
         first [ left; repeat split; reflexivity
               | right; left; split; [reflexivity | eexists; reflexivity]
               | right; right; split; [reflexivity |]; split; [reflexivity |];
                 right; eexists; split; reflexivity ]).
    + cbn. split; [discriminate |]. split; [reflexivity |]. intros _ _.
      split; [reflexivity |]. right; left. split; [reflexivity |]. eexists. reflexivity.
    + cbn. split; [discriminate |]. split; [reflexivity |]. intros _ _.
      split; [reflexivity |]. right; right. repeat split. now left.
Qed.

Lemma connect_settles_witness :
  trim (userName (view (started (typed "Alex")))) <> "" /\
  lone_surrogate (userName (view (started (typed "Alex")))) = false /\
  fetched (fst (handleConnect (browser_on world_no_key) (started (typed "Alex"))))
    = [connect_url (browser_on world_no_key) "Alex"] /\
  view (fst (handleConnect (browser_on world_no_key) (started (typed "Alex"))))
    = settled_as (typed "Alex") disconnected (Some "Server configuration error").
Proof.
  assert (Hname : trim (userName (view (started (typed "Alex")))) <> "")
    by (vm_compute; discriminate).
  destruct (connect_settles (browser_on world_no_key) (started (typed "Alex")))
    as (_ & _ & Hrest).
  destruct (Hrest Hname eq_refl) as [Hfetched _].
  exact (conj Hname (conj eq_refl (conj Hfetched eq_refl))).
Defined.





(** * Properties of the page and the route together *)

Lemma generated_room_not_empty (b : Browser) : generated_room b <> "".
Proof.
  unfold generated_room, generateRoomName. cbn [snd].
  rewrite append_cons. discriminate.
Qed.

Lemma page_request_valid (b : Browser) (name : string) :
  trim name <> "" ->
  valid_request (request_received (connect_url b name)) (generated_room b) name.
Proof.
  intros Hname. unfold valid_request, query, connect_url.
  rewrite query_round_trip. cbn [URLSearchParams_get String.eqb Ascii.eqb Bool.eqb].
  split; (split; [reflexivity |]).
  - apply generated_room_not_empty.
  - now apply not_blank_not_empty.
Qed.

(** X14. A request sent by [handleConnect] is never turned down by the
    route's parameter check: for a name that is not blank, the route reads
    the generated room and the name as typed (not trimmed), both not empty,
    and whatever the world, its response never has status 400. *)
Theorem page_request_passes_validation
        (b : Browser) (name : string) (w : World) (log : list Event) :
  trim name <> "" ->
  query (request_received (connect_url b name)) "room" = Some (generated_room b) /\
  query (request_received (connect_url b name)) "username" = Some name /\
  valid_request (request_received (connect_url b name)) (generated_room b) name /\
  (forall resp,
     outcome (request_received (connect_url b name)) w log = Normal resp ->
     status resp <> 400).
Proof.
  intros Hname.
  pose proof (page_request_valid b name Hname) as Hv.
  split; [apply Hv |]. split; [apply Hv |]. split; [exact Hv |].
  intros resp Hout.
  destruct (run_cases (request_received (connect_url b name)) w log)
    as [(Hbad & _) | [(room & user & _ & _ & _ & H)
                     | (room & user & key & secret & url & _ & _ & Hs)]].
  - exfalso. destruct Hv as [[Hr Hr'] [Hu Hu']].
    destruct Hbad as [[H | H] | [H | H]]; congruence.
  - rewrite H in Hout. injection Hout as <-. discriminate.
  - rewrite Hout in Hs.
    destruct (session_response _ _ _ _ _ _ _ _ _ Hs) as (jwt & -> & _). discriminate.
Qed.

Lemma page_request_passes_validation_witness :
  trim " Alex " <> "" /\
  query (request_received (connect_url (browser_on world_strict) " Alex ")) "username"
    = Some " Alex " /\
  valid_request (request_received (connect_url (browser_on world_strict) " Alex "))
    (generated_room (browser_on world_strict)) " Alex ".
Proof.
  assert (Hname : trim " Alex " <> "") by (vm_compute; discriminate).
  destruct (page_request_passes_validation (browser_on world_strict) " Alex "
              world_strict [] Hname) as (_ & Hu & Hv & _).
  exact (conj Hname (conj Hu Hv)).
Defined.

(** X15. From the click to the credential. Let the name not be blank and
    hold no lone surrogate, the world be configured, signing work, and the
    network deliver the route's response to the page. Then [handleConnect]
    ends connected, with the error cleared, [serverUrl] equal to LIVEKIT_URL
    and [token] the string the signing library returned for a token whose
    identity is the name as typed and whose room is the generated room. *)
Theorem connect_end_to_end
        (b : Browser) (r : PageRun) (w : World) (log : list Event)
        (key secret url : string) :
  trim (userName (view r)) <> "" ->
  lone_surrogate (userName (view r)) = false ->
  configured w key secret url ->
  signing_works w ->
  (forall resp,
     outcome (request_received (connect_url b (userName (view r)))) w log = Normal resp ->
     fetch b (connect_url b (userName (view r))) = Resolved (delivered resp)) ->
  exists jwt,
    view (fst (handleConnect b r))
      = {| connectionState := connected;
           token := Value (JStr jwt);
           serverUrl := Value (JStr url);
           userName := userName (view r);
           error := None |} /\
    In (EvToJwt (credential key secret (generated_room b) (userName (view r))) (Normal jwt))
       (emitted (request_received (connect_url b (userName (view r)))) w log) /\
    room_calls (emitted (request_received (connect_url b (userName (view r)))) w log)
      = [CreateRoom (room_policy (generated_room b) (userName (view r)))].
Proof.
  intros Hname _ Hc Hw Hnet.
  pose proof (page_request_valid b _ Hname) as Hv.
  destruct (run_session _ w log _ _ key secret url Hv Hc) as [_ Hs].
  destruct (session_succeeds _ _ _ _ _ _ _ _ _ Hw Hs) as [jwt Hout].
  exists jwt. split; [| split].
  - specialize (Hnet _ Hout).
    open_connect Hname.
    change ("/api/token?room=" +:+ _ +:+ "&username=" +:+ _)
      with (connect_url b (userName (view r))).
    rewrite Hnet. reflexivity.
  - rewrite Hout in Hs.
    destruct (session_response _ _ _ _ _ _ _ _ _ Hs) as (jwt' & Heq & Hin).
    injection Heq as <-. exact Hin.
  - exact (session_creates_once _ _ _ _ _ _ _ _ _ Hs).
Qed.

Lemma connect_end_to_end_witness :
  trim (userName (view (started (typed " Alex ")))) <> "" /\
  lone_surrogate (userName (view (started (typed " Alex ")))) = false /\
  configured world_strict "devkey" "devsecret" demo_url /\
  signing_works world_strict /\
  exists jwt,
    view (fst (handleConnect (browser_on world_strict) (started (typed " Alex "))))
      = {| connectionState := connected;
           token := Value (JStr jwt);
           serverUrl := Value (JStr demo_url);
           userName := " Alex ";
           error := None |} /\
    In (EvToJwt (credential "devkey" "devsecret"
                   (generated_room (browser_on world_strict)) " Alex ") (Normal jwt))
       (emitted (request_received (connect_url (browser_on world_strict) " Alex "))
          world_strict []).
Proof.
  assert (Hname : trim (userName (view (started (typed " Alex ")))) <> "")
    by (vm_compute; discriminate).
  assert (Hc : configured world_strict "devkey" "devsecret" demo_url) by by_evaluation.
  assert (Hw : signing_works world_strict) by (intros l tok; eexists; reflexivity).
  destruct (connect_end_to_end (browser_on world_strict) (started (typed " Alex "))
              world_strict [] "devkey" "devsecret" demo_url Hname eq_refl Hc Hw)
    as (jwt & Hview & Hin & _).
  { intros resp Hout. cbn [browser_on fetch]. cbn [started view typed userName] in *.
    rewrite Hout. reflexivity. }
  exact (conj Hname (conj eq_refl (conj Hc (conj Hw (ex_intro _ jwt (conj Hview Hin)))))).
Defined.

(** X16. From a broken configuration to the message on the page. Let the
    name not be blank and hold no lone surrogate, a configuration value be
    missing or empty, and the network deliver the route's response to the
    page. Then no room is created, nothing is signed, and [handleConnect]
    ends disconnected, showing "Server configuration error", token and
    server URL untouched. *)
Theorem configuration_error_reaches_page
        (b : Browser) (r : PageRun) (w : World) (log : list Event) :
  trim (userName (view r)) <> "" ->
  lone_surrogate (userName (view r)) = false ->
  config_incomplete w ->
  (forall resp,
     outcome (request_received (connect_url b (userName (view r)))) w log = Normal resp ->
     fetch b (connect_url b (userName (view r))) = Resolved (delivered resp)) ->
  view (fst (handleConnect b r))
    = settled_as (view r) disconnected (Some "Server configuration error") /\
  room_calls (emitted (request_received (connect_url b (userName (view r)))) w log) = [] /\
  signed (emitted (request_received (connect_url b (userName (view r)))) w log) = [].
Proof.
  intros Hname _ Hc Hnet.
  pose proof (page_request_valid b _ Hname) as Hv.
  pose proof (GET_missing_config _ w log _ _ Hv Hc) as Hrun.
  assert (Hout : outcome (request_received (connect_url b (userName (view r)))) w log
                 = Normal (error_response 500 "Server configuration error"))
    by (unfold outcome; now rewrite Hrun).
  split; [| run_with Hrun; split; reflexivity].
  specialize (Hnet _ Hout).
  open_connect Hname.
  change ("/api/token?room=" +:+ _ +:+ "&username=" +:+ _)
    with (connect_url b (userName (view r))).
  rewrite Hnet. reflexivity.
Qed.

Lemma configuration_error_reaches_page_witness :
  trim (userName (view (started (typed "Alex")))) <> "" /\
  lone_surrogate (userName (view (started (typed "Alex")))) = false /\
  config_incomplete world_no_key /\
  view (fst (handleConnect (browser_on world_no_key) (started (typed "Alex"))))
    = settled_as (typed "Alex") disconnected (Some "Server configuration error").
Proof.
  assert (Hname : trim (userName (view (started (typed "Alex")))) <> "")
    by (vm_compute; discriminate).
  assert (Hc : config_incomplete world_no_key) by (left; left; vm_compute; reflexivity).
  destruct (configuration_error_reaches_page (browser_on world_no_key)
              (started (typed "Alex")) world_no_key [] Hname eq_refl Hc)
    as (Hview & _).
  { intros resp Hout. cbn [browser_on fetch]. cbn [started view typed userName] in *.
    rewrite Hout. reflexivity. }
  exact (conj Hname (conj eq_refl (conj Hc Hview))).
Defined.

(** * Failures on the way *)


